(** * llama_chatbot.py: a shallow embedding and its verified properties

    The development follows [src/llama_chatbot.py]: the [ChatBot] class
    (prompt formatting, the streaming chat call, clear, save and list) and
    the command loop of [main].

    Modelling conventions.
    - A Python [str] is a [string]; every [ascii] stands for one code point
      in U+0000..U+00FF, so that [len], [strip], [lower] and [split] are
      exact on that range.
    - Console output is a list of [notice] values, one per [print] of the
      source; the wording of the messages is not modelled.
    - The inference engine, the clock and the file system are oracles held
      in explicit state ([Llama], [World]).
    - A Python [float] that holds a time is the rational number it
      denotes ([Q]): order and equality of the floats are those of the
      rationals.
    - Exceptions are values of [exn]; a call that may raise returns a sum.
      [KeyboardInterrupt] is raised by the call that blocks when the key is
      pressed: [input] or the engine's generator. *)

From Stdlib Require Import Lists.List Sorting.Sorted Sorting.Permutation
  Arith.Arith ZArith.ZArith QArith.QArith
  Bool.Bool micromega.Lia Strings.Ascii Strings.String.
Import ListNotations.
Local Open Scope list_scope.
Local Open Scope string_scope.
Local Open Scope nat_scope.

(* ================================================================== *)
(** ** Python string operations *)

Module PyStr.

Definition nl : string := String (ascii_of_nat 10) "".

(** [str.isspace] on one code point below U+0100. *)
Definition is_space (c : ascii) : bool :=
  let n := nat_of_ascii c in
  ((9 <=? n) && (n <=? 13)) || ((28 <=? n) && (n <=? 32))
  || (n =? 133) || (n =? 160).

(** [str.lower] on one code point below U+0100. *)
Definition lower_char (c : ascii) : ascii :=
  let n := nat_of_ascii c in
  if ((65 <=? n) && (n <=? 90))
     || ((192 <=? n) && (n <=? 222) && negb (n =? 215))
  then ascii_of_nat (n + 32) else c.

Fixpoint lower (s : string) : string :=
  match s with
  | "" => ""
  | String c s' => String (lower_char c) (lower s')
  end.

Definition startswith (s p : string) : bool := prefix p s.

(** [s.endswith(suf)]: some tail of [s] is [suf]. *)
Fixpoint endswith (s suf : string) : bool :=
  (s =? suf)%string ||
  match s with
  | "" => false
  | String _ s' => endswith s' suf
  end.

(** [pat in s]. *)
Fixpoint contains (pat s : string) : bool :=
  prefix pat s ||
  match s with
  | "" => false
  | String _ s' => contains pat s'
  end.

(** [s.replace(old, new)] for a non-empty [old]: a left-to-right scan
    over non-overlapping occurrences.  [skip] counts the characters of
    the occurrence being consumed. *)
Fixpoint replace_from (old new : string) (skip : nat) (s : string) : string :=
  match s with
  | "" => ""
  | String c s' =>
      match skip with
      | S k => replace_from old new k s'
      | O =>
          if prefix old s
          then new ++ replace_from old new (length old - 1) s'
          else String c (replace_from old new 0 s')
      end
  end.

(** [s.replace(old, new)]; with an empty [old], Python puts [new]
    before every character and at the end. *)
Fixpoint intersperse (new s : string) : string :=
  match s with
  | "" => new
  | String c s' => new ++ String c (intersperse new s')
  end.

Definition replace (old new s : string) : string :=
  match old with
  | "" => intersperse new s
  | _ => replace_from old new 0 s
  end.

Fixpoint lstrip (s : string) : string :=
  match s with
  | "" => ""
  | String c s' => if is_space c then lstrip s' else s
  end.

Fixpoint rstrip (s : string) : string :=
  match s with
  | "" => ""
  | String c s' =>
      let r := rstrip s' in
      if is_space c && (r =? "")%string then "" else String c r
  end.

Definition strip (s : string) : string := lstrip (rstrip s).

(** The first whitespace-free run of [s] and what follows it. *)
Fixpoint span_word (s : string) : string * string :=
  match s with
  | "" => ("", "")
  | String c s' =>
      if is_space c then ("", s)
      else let '(w, r) := span_word s' in (String c w, r)
  end.

(** [s.split(maxsplit=1)]. *)
Definition split1 (s : string) : list string :=
  match lstrip s with
  | "" => []
  | t =>
      let '(w, r) := span_word t in
      match lstrip r with
      | "" => [w]
      | r' => [w; r']
      end
  end.

Definition is_digit (c : ascii) : bool :=
  let n := nat_of_ascii c in (48 <=? n) && (n <=? 57).

Definition digit_val (c : ascii) : Z := Z.of_nat (nat_of_ascii c - 48).

(** Digits of a decimal literal, single underscores allowed between
    digits; [prev_digit] tells whether the previous character was one. *)
Fixpoint parse_digits (s : string) (acc : Z) (prev_digit : bool) : option Z :=
  match s with
  | "" => if prev_digit then Some acc else None
  | String c s' =>
      if is_digit c then parse_digits s' (10 * acc + digit_val c)%Z true
      else if (Ascii.eqb c "_") && prev_digit
           then match s' with
                | "" => None
                | String d _ =>
                    if is_digit d then parse_digits s' acc false else None
                end
           else None
  end.

Fixpoint count_digits (s : string) : nat :=
  match s with
  | "" => 0
  | String c s' => (if is_digit c then 1 else 0) + count_digits s'
  end.

(** [int(s)]; [None] stands for [ValueError], which is also what a
    literal of more than 4300 digits raises. *)
Definition int (s : string) : option Z :=
  if 4300 <? count_digits (strip s) then None
  else
    match strip s with
    | String "+" t => parse_digits t 0%Z false
    | String "-" t => option_map Z.opp (parse_digits t 0%Z false)
    | t => parse_digits t 0%Z false
    end.

Definition digit_char (n : nat) : ascii := ascii_of_nat (48 + n mod 10).

(** Zero-padded decimal fields of [strftime]: [%m %d %H %M %S] for a
    value below 100, [%Y] for a year below 10000. *)
Definition pad2 (n : nat) : string :=
  String (digit_char (n / 10)) (String (digit_char n) "").

Definition pad4 (n : nat) : string :=
  String (digit_char (n / 1000)) (String (digit_char (n / 100)) (pad2 n)).

(** [s[1:]] *)
Definition tail (s : string) : string :=
  match s with
  | "" => ""
  | String _ s' => s'
  end.

(** [s[n:]] *)
Fixpoint drop (n : nat) (s : string) : string :=
  match n, s with
  | S k, String _ s' => drop k s'
  | _, _ => s
  end.

(** The part of [s] before the first occurrence of [pat], all of [s]
    when there is none. *)
Fixpoint text_before (pat s : string) : string :=
  if prefix pat s then ""
  else match s with
       | "" => ""
       | String c s' => String c (text_before pat s')
       end.

(** The part of [s] after the first occurrence of [pat]. *)
Fixpoint text_after (pat s : string) : string :=
  if prefix pat s then drop (length pat) s
  else match s with
       | "" => ""
       | String _ s' => text_after pat s'
       end.

(** The last character of a string, [d] when there is none. *)
Fixpoint last_char (s : string) (d : ascii) : ascii :=
  match s with
  | "" => d
  | String c s' => last_char s' c
  end.

End PyStr.

Import PyStr.

(* ================================================================== *)
(** ** Configuration constants *)

Definition CHAT_HISTORY_DIR : string := "chat_history".

Definition EOT : string := "<|eot_id|>".

Definition BEGIN_OF_TEXT : string := "<|begin_of_text|>".

Definition header (role : string) : string :=
  "<|start_header_id|>" ++ role ++ "<|end_header_id|>" ++ nl ++ nl.

(* ================================================================== *)
(** ** Exceptions and console output *)

(** [KeyboardInterrupt] is the only member that is not an [Exception]. *)
Inductive exn : Type :=
  | KeyboardInterrupt
  | EOFError
  | IndexError
  | ValueError
  | OSError (msg : string)
  | RuntimeError (msg : string).

Definition is_Exception (e : exn) : bool :=
  match e with
  | KeyboardInterrupt => false
  | _ => true
  end.

Record Message : Type := mkMessage { role : string; content : string }.

(** One value per [print] site that a property below refers to. *)
Inductive notice : Type :=
  | NModelNotLoaded
  | NToken (text : string)
  | NNoResponse
  | NInterrupted
  | NError (e : exn)
  | NAlreadyEmpty
  | NCleared
  | NCancelled
  | NNoChatToSave
  | NChatSaved (filepath : string)
  | NErrorSaving (e : exn)
  | NNoSavedChats
  | NSavedChats (rows : list (string * Q))
  | NStats (total users assistants tokens with_system : nat)
  | NNoHistory
  | NHistory (rows : list (string * string))
  | NHelp
  | NInvalidNumber
  | NUnknownCommand (command : string)
  | NGoodbye
  | NTypeQuit
  | NUnexpectedError (e : exn)
  | NModelFileNotFound
  | NLoadError (e : exn)
  | NModelLoaded.

(* ================================================================== *)
(** ** The inference engine *)

(** One element of [output["choices"]]; a missing key is [None]. *)
Record choice : Type := mkChoice {
  text : option string;
  finish_reason : option string
}.

(** One streamed [output] dictionary; [choices = None] when the key is
    absent. *)
Record output : Type := mkOutput { choices : option (list choice) }.

(** What the generator does when asked for its next item: it yields an
    output or raises.  The end of the list is [StopIteration]. *)
Inductive stream_event : Type :=
  | Yield (o : output)
  | Raise (e : exn).

(** A stream event carrying one choice with the given text and no finish
    reason. *)
Definition fragment (t : string) : stream_event :=
  Yield (mkOutput (Some [mkChoice (Some t) None])).

(** The engine is a black box: its answer to the [n]-th call is a function
    of [n] and of the prompt. *)
Record Llama : Type := mkLlama {
  script : nat -> string -> list stream_event;
  ncalls : nat
}.

Definition call (m : Llama) (prompt : string) : list stream_event * Llama :=
  (script m (ncalls m) prompt, mkLlama (script m) (S (ncalls m))).

(* ================================================================== *)
(** ** The terminal *)

(** What the user does at a prompt: types a line or presses Ctrl-C. *)
Inductive stdin_event : Type :=
  | Line (s : string)
  | CtrlC.

(** [input(...)]: the next terminal event; a closed standard input raises
    [EOFError]. *)
Definition input (stdin : list stdin_event) : (exn + string) * list stdin_event :=
  match stdin with
  | [] => (inl EOFError, [])
  | Line s :: rest => (inr s, rest)
  | CtrlC :: rest => (inl KeyboardInterrupt, rest)
  end.

(* ================================================================== *)
(** ** class ChatBot *)

Record ChatBot : Type := mkChatBot {
  llm : option Llama;
  chat_history : list Message;
  system_prompt : string;
  current_chat_file : option string
}.

Definition set_history (b : ChatBot) (h : list Message) : ChatBot :=
  mkChatBot (llm b) h (system_prompt b) (current_chat_file b).

Definition set_llm (b : ChatBot) (m : option Llama) : ChatBot :=
  mkChatBot m (chat_history b) (system_prompt b) (current_chat_file b).

Definition set_file (b : ChatBot) (f : option string) : ChatBot :=
  mkChatBot (llm b) (chat_history b) (system_prompt b) f.

(** [list.pop()] on a list known to be non-empty. *)
Definition pop (h : list Message) : list Message := removelast h.

Definition format_message (msg : Message) : string :=
  "<|start_header_id|>" ++ role msg ++ "<|end_header_id|>" ++ nl ++ nl
  ++ content msg ++ "<|eot_id|>".

(** [ChatBot.format_chat_history] *)
Definition format_chat_history (b : ChatBot) : string :=
  fold_left (fun formatted msg => formatted ++ format_message msg)
    (chat_history b)
    ("<|begin_of_text|><|start_header_id|>system<|end_header_id|>" ++ nl ++ nl
     ++ system_prompt b ++ "<|eot_id|>").

(** The prompt that [ChatBot.chat] sends to the engine (lines 135-136). *)
Definition chat_prompt (b : ChatBot) : string :=
  format_chat_history b ++ "<|start_header_id|>assistant<|end_header_id|>"
  ++ nl ++ nl.

(** State of the [for] loop of [ChatBot.chat]: the text accumulated so far
    and what was printed. *)
Record consumed : Type := mkConsumed {
  response_text : string;
  printed : list notice;
  raised : option exn
}.

(** [choice.get("finish_reason") == "stop"] *)
Definition is_stop (reason : option string) : bool :=
  match reason with
  | Some r => (r =? "stop")%string
  | None => false
  end.

(** The body of the [for output in self.llm(...)] loop. *)
Fixpoint consume (evs : list stream_event) (acc : string) (out : list notice)
  : consumed :=
  match evs with
  | [] => mkConsumed acc out None
  | Raise e :: _ => mkConsumed acc out (Some e)
  | Yield o :: rest =>
      match choices o with
      | Some (ch :: _) =>
          let token := match text ch with Some t => t | None => "" end in
          if is_stop (finish_reason ch) then mkConsumed acc out None
          else if contains "<|eot_id|>" token then
            let token' := replace "<|eot_id|>" "" token in
            match token' with
            | "" => mkConsumed acc out None
            | _ => mkConsumed (acc ++ token') (out ++ [NToken token'])%list None
            end
          else consume rest (acc ++ token) (out ++ [NToken token])%list
      | _ => consume rest acc out
      end
  end.

(** [ChatBot.chat] *)
Definition chat (b : ChatBot) (user_input : string)
  : ChatBot * option string * list notice :=
  match llm b with
  | None => (b, None, [NModelNotLoaded])
  | Some m =>
      let b1 := set_history b (chat_history b ++ [mkMessage "user" user_input])%list in
      let prompt := chat_prompt b1 in
      let '(evs, m') := call m prompt in
      let b2 := set_llm b1 (Some m') in
      let r := consume evs "" [] in
      match raised r with
      | None =>
          let response := strip (response_text r) in
          if (response =? "")%string || (length response <? 2)
          then (set_history b2 (pop (chat_history b2)), None,
                (printed r ++ [NNoResponse])%list)
          else (set_history b2
                  (chat_history b2 ++ [mkMessage "assistant" response])%list,
                Some response, printed r)
      | Some KeyboardInterrupt =>
          (set_history b2 (pop (chat_history b2)), None,
           (printed r ++ [NInterrupted])%list)
      | Some e =>
          (set_history b2 (pop (chat_history b2)), None,
           (printed r ++ [NError e])%list)
      end
  end.

(** [ChatBot.clear_chat]; the confirmation is read from the terminal only
    when the history is not empty.  The last component is the exception
    that [input] raised, if any. *)
Definition clear_chat (b : ChatBot) (stdin : list stdin_event)
  : ChatBot * list stdin_event * list notice * option exn :=
  match chat_history b with
  | [] => (b, stdin, [NAlreadyEmpty], None)
  | _ =>
      let '(answer, rest) := input stdin in
      match answer with
      | inl e => (b, rest, [], Some e)
      | inr line =>
          let confirm := lower (strip line) in
          if (confirm =? "y")%string
          then (set_file (set_history b []) None, rest, [NCleared], None)
          else (b, rest, [NCancelled], None)
      end
  end.

(* ================================================================== *)
(** ** The clock and the chat directory *)

Record datetime : Type := mkDatetime {
  year : nat; month : nat; day : nat;
  hour : nat; minute : nat; second : nat
}.

(** [t.strftime("%Y%m%d_%H%M%S")] *)
Definition strftime (t : datetime) : string :=
  pad4 (year t) ++ pad2 (month t) ++ pad2 (day t) ++ "_"
  ++ pad2 (hour t) ++ pad2 (minute t) ++ pad2 (second t).

(** The dictionary handed to [json.dump]; the timestamp is kept as the
    [datetime] it is rendered from. *)
Record save_data : Type := mkSaveData {
  sd_timestamp : datetime;
  sd_system_prompt : string;
  sd_messages : list Message
}.

(** What a file holds: a complete record, or anything else (a write that
    failed half-way, a file of another origin). *)
Inductive file_content : Type :=
  | Saved (d : save_data)
  | Other.

(** A directory entry as [stat] sees it: a file with its [st_mtime], the
    float that the listing sorts on and shows, or a symbolic link whose
    target is missing. *)
Inductive node : Type :=
  | File (mtime : Q) (data : file_content)
  | DanglingLink.

Inductive write_fault : Type :=
  | OpenFails (msg : string)
  | DumpFails (msg : string).

(** [files] lists what [CHAT_HISTORY_DIR] gives access to, in the order in
    which the directory enumerates it, keyed by the path relative to the
    directory as the program spells it; the keys without a separator are
    the entries of the directory itself.  [wall_clock] is what
    [datetime.now] returns, [fs_clock] the [st_mtime] that [stat] reports
    for a file written now, [write_faults] what goes wrong with a write;
    the three oracles are indexed by [ticks], the number of times they
    were consulted. *)
Record World : Type := mkWorld {
  files : list (string * node);
  ticks : nat;
  wall_clock : nat -> datetime;
  fs_clock : nat -> Q;
  write_faults : nat -> option write_fault
}.

Definition tick (w : World) : World :=
  mkWorld (files w) (S (ticks w)) (wall_clock w) (fs_clock w) (write_faults w).

Definition set_files (w : World) (fs : list (string * node)) : World :=
  mkWorld fs (ticks w) (wall_clock w) (fs_clock w) (write_faults w).

(** [datetime.now(self.timezone)] *)
Definition datetime_now (w : World) : datetime * World :=
  (wall_clock w (ticks w), tick w).

Fixpoint store (name : string) (n : node) (fs : list (string * node))
  : list (string * node) :=
  match fs with
  | [] => [(name, n)]
  | (k, v) :: rest =>
      if (k =? name)%string then (k, n) :: rest
      else (k, v) :: store name n rest
  end.

Fixpoint lookup (name : string) (fs : list (string * node)) : option node :=
  match fs with
  | [] => None
  | (k, v) :: rest => if (k =? name)%string then Some v else lookup name rest
  end.

Definition NUL : string := String (ascii_of_nat 0) "".

(** [with open(filepath, 'w') as f: json.dump(save_data, f, ...)]: [open]
    rejects a name with a NUL character, and creates or truncates the file
    before [json.dump] writes to it. *)
Definition write_json (w : World) (filename : string) (d : save_data)
  : World * option exn :=
  if contains NUL filename then (w, Some ValueError)
  else
    let now := fs_clock w (ticks w) in
    match write_faults w (ticks w) with
    | Some (OpenFails msg) => (tick w, Some (OSError msg))
    | Some (DumpFails msg) =>
        (set_files (tick w) (store filename (File now Other) (files w)),
         Some (OSError msg))
    | None =>
        (set_files (tick w) (store filename (File now (Saved d)) (files w)),
         None)
    end.

(** The file name chosen by [ChatBot.save_chat] (lines 204-212). *)
Definition resolve_filename (b : ChatBot) (custom_filename : option string)
  (w : World) : string * World :=
  match custom_filename with
  | None | Some "" =>
      match current_chat_file b with
      | None | Some "" =>
          let '(now, w') := datetime_now w in
          ("chat_" ++ strftime now ++ ".json", w')
      | Some f => (f, w)
      end
  | Some c => (if endswith c ".json" then c else c ++ ".json", w)
  end.

(** [ChatBot.save_chat]; [NChatSaved] and [NErrorSaving] stand for the two
    messages printed after the attempt to write. *)
Definition save_chat (b : ChatBot) (custom_filename : option string)
  (w : World) : ChatBot * World * list notice :=
  match chat_history b with
  | [] => (b, w, [NNoChatToSave])
  | _ =>
      let '(filename, w1) := resolve_filename b custom_filename w in
      let '(now, w2) := datetime_now w1 in
      let d := mkSaveData now (system_prompt b) (chat_history b) in
      match write_json w2 filename d with
      | (w3, None) => (set_file b (Some filename), w3, [NChatSaved filename])
      | (w3, Some e) => (b, w3, [NErrorSaving e])
      end
  end.

(** [chat_dir.glob("*.json")]: the entries of the directory whose name
    ends in [.json]. *)
Definition glob_json (fs : list (string * node)) : list (string * node) :=
  filter (fun e => negb (contains "/" (fst e)) && endswith (fst e) ".json") fs.

(** [x.stat().st_mtime] for every path, in order; [stat] follows links
    and raises on a missing target. *)
Fixpoint stat_mtimes (l : list (string * node)) : exn + list (string * Q) :=
  match l with
  | [] => inr []
  | (name, File t _) :: rest =>
      match stat_mtimes rest with
      | inr keyed => inr ((name, t) :: keyed)
      | inl e => inl e
      end
  | (name, DanglingLink) :: _ => inl (OSError "No such file or directory")
  end.

(** [sorted(..., key=..., reverse=True)]: greatest key first, elements
    with equal keys in their original order. *)
Fixpoint insert_desc (x : string * Q) (l : list (string * Q))
  : list (string * Q) :=
  match l with
  | [] => [x]
  | y :: ys =>
      if Qle_bool (snd y) (snd x) then x :: y :: ys else y :: insert_desc x ys
  end.

Fixpoint sorted_desc (l : list (string * Q)) : list (string * Q) :=
  match l with
  | [] => []
  | x :: xs => insert_desc x (sorted_desc xs)
  end.

(** [datetime.fromtimestamp(t, tz=self.timezone)] returns for the times
    from year 1 to year 9999 of the time zone of the bot, Europe/London,
    whose first year begins 75 seconds after that of UTC; outside it
    raises ([ValueError], [OverflowError] or [OSError] by the distance). *)
Definition fromtimestamp_ok (t : Q) : bool :=
  Qle_bool (-62135596725) t && negb (Qle_bool 253402300800 t).

(** The [for] loop of [ChatBot.list_saved_chats] (lines 243-247): the rows
    printed, and the exception that ended the loop, if any.  [ValueError]
    stands for the three exceptions of [fromtimestamp]. *)
Fixpoint display_rows (rows : list (string * Q))
  : list (string * Q) * option exn :=
  match rows with
  | [] => ([], None)
  | row :: rest =>
      if fromtimestamp_ok (snd row) then
        let '(shown, e) := display_rows rest in (row :: shown, e)
      else ([], Some ValueError)
  end.

(** [ChatBot.list_saved_chats]: the names returned, or the exception that
    [stat] raised while the keys were computed or that [fromtimestamp]
    raised while the rows were printed.  [NSavedChats] stands for the
    header and the rows printed, followed by the closing rule when the
    loop ends. *)
Definition list_saved_chats (b : ChatBot) (w : World)
  : (exn + list string) * list notice :=
  match stat_mtimes (glob_json (files w)) with
  | inl e => (inl e, [])
  | inr keyed =>
      let chat_files := sorted_desc keyed in
      match chat_files with
      | [] => (inr [], [NNoSavedChats])
      | _ =>
          match display_rows chat_files with
          | (shown, Some e) => (inl e, [NSavedChats shown])
          | (shown, None) => (inr (map fst chat_files), [NSavedChats shown])
          end
      end
  end.

Definition count_role (r : string) (h : list Message) : nat :=
  List.length (filter (fun msg => (role msg =? r)%string) h).

(** [ChatBot.show_stats]: the figures it prints; the usage percentage and
    the current file line are derived from them and from the state. *)
Definition show_stats (b : ChatBot) : list notice :=
  let total_chars :=
    fold_right (fun msg n => length (content msg) + n) 0 (chat_history b) in
  let estimated_tokens := total_chars / 4 in
  let system_tokens := length (system_prompt b) / 4 in
  [NStats (List.length (chat_history b))
          (count_role "user" (chat_history b))
          (count_role "assistant" (chat_history b))
          estimated_tokens (estimated_tokens + system_tokens)].

(** [ChatBot.display_history]; each row is a role and the content shown. *)
Definition display_history (b : ChatBot) (last_n : Z) : list notice :=
  match chat_history b with
  | [] => [NNoHistory]
  | h =>
      let messages :=
        if (0 <? last_n)%Z
        then skipn (List.length h - Z.to_nat last_n) h
        else h in
      [NHistory
         (map (fun msg =>
                 let c := content msg in
                 (role msg,
                  if (200 <? length c) && (last_n =? 0)%Z
                  then substring 0 200 c ++ "..." else c))
              messages)]
  end.

(* ================================================================== *)
(** ** main *)

(** What [main] finds when it starts: whether [MODEL_PATH] exists and what
    the constructor of [Llama] does with [MODEL_CONFIG]. *)
Record Startup : Type := mkStartup {
  model_exists : bool;
  engine_init : exn + Llama
}.

Record Proc : Type := mkProc {
  bot : ChatBot;
  world : World;
  stdin : list stdin_event;
  stdout : list notice
}.

Definition say (p : Proc) (out : list notice) : Proc :=
  mkProc (bot p) (world p) (stdin p) (stdout p ++ out)%list.

(** How one pass through the body of [while True] ends: it reaches the
    end of the body or a [continue], executes [break], or raises. *)
Inductive control : Type :=
  | Next
  | Break
  | Throw (e : exn).

(** How the process ends: [sys.exit(code)] or a return from [main] (status
    0), or an exception that nothing catches. *)
Inductive exit_status : Type :=
  | Exit (code : nat)
  | Uncaught (e : exn).

Definition mem_string (s : string) (l : list string) : bool :=
  existsb (String.eqb s) l.

(** [ChatBot.load_model]: the bot with the engine and [True], or the bot
    unchanged and [False]; an exception that is not an [Exception] is not
    caught. *)
Definition load_model (b : ChatBot) (s : Startup)
  : ChatBot * list notice * (exn + bool) :=
  match engine_init s with
  | inr m => (set_llm b (Some m), [NModelLoaded], inr true)
  | inl e =>
      if is_Exception e then (b, [NLoadError e], inr false)
      else (b, [], inl e)
  end.

(** The body of the inner [try] of [main] (lines 347-391). *)
Definition loop_body (p : Proc) : control * Proc :=
  let '(r, rest) := input (stdin p) in
  let p := mkProc (bot p) (world p) rest (stdout p) in
  match r with
  | inl e => (Throw e, p)
  | inr line =>
      let user_input := strip line in
      if (user_input =? "")%string then (Next, p)
      else if startswith user_input "/" then
          match split1 (tail user_input) with
          | [] => (Throw IndexError, p)
          | c :: more =>
              let command := lower c in
              let args := match more with a :: _ => Some a | [] => None end in
              if mem_string command ["quit"; "exit"; "q"] then
                (Break, say p [NGoodbye])
              else if (command =? "help")%string then
                (Next, say p [NHelp])
              else if (command =? "clear")%string then
                let '(b', rest', out, e) := clear_chat (bot p) (stdin p) in
                let p' := mkProc b' (world p) rest' (stdout p ++ out)%list in
                match e with
                | Some e => (Throw e, p')
                | None => (Next, p')
                end
              else if (command =? "save")%string then
                let '(b', w', out) := save_chat (bot p) args (world p) in
                (Next, mkProc b' w' (stdin p) (stdout p ++ out)%list)
              else if (command =? "list")%string then
                match list_saved_chats (bot p) (world p) with
                | (inl e, out) => (Throw e, say p out)
                | (inr _, out) => (Next, say p out)
                end
              else if (command =? "stats")%string then
                (Next, say p (show_stats (bot p)))
              else if (command =? "history")%string then
                match (match args with
                       | None | Some "" => Some 0%Z
                       | Some a => int a
                       end) with
                | Some n => (Next, say p (display_history (bot p) n))
                | None => (Next, say p [NInvalidNumber])
                end
              else
                (Next, say p [NUnknownCommand command])
          end
      else
          let '(b', _, out) := chat (bot p) user_input in
          (Next, mkProc b' (world p) (stdin p) (stdout p ++ out)%list)
  end.

(** One pass through [while True], with the inner handler
    [except KeyboardInterrupt: ... continue]. *)
Definition iteration (p : Proc) : control * Proc :=
  match loop_body p with
  | (Throw KeyboardInterrupt, p') => (Next, say p' [NTypeQuit])
  | r => r
  end.

(** [while True]: [None] when [fuel] passes were not enough to leave it. *)
Fixpoint run_loop (fuel : nat) (p : Proc) : option (control * Proc) :=
  match fuel with
  | O => None
  | S fuel' =>
      match iteration p with
      | (Next, p') => run_loop fuel' p'
      | r => Some r
      end
  end.

(** The [finally] block of [main]. *)
Definition cleanup (p : Proc) : option exn * Proc :=
  match chat_history (bot p) with
  | [] => (None, p)
  | _ =>
      let '(answer, rest) := input (stdin p) in
      let p := mkProc (bot p) (world p) rest (stdout p) in
      match answer with
      | inl e => (Some e, p)
      | inr line =>
          let save := lower (strip line) in
          if (save =? "y")%string then
            let '(b', w', out) := save_chat (bot p) None (world p) in
            (None, mkProc b' w' (stdin p) (stdout p ++ out)%list)
          else (None, p)
      end
  end.

(** [ChatBot(timezone_name="Europe/London")].  The constructor looks up
    the time zone and makes sure that the chat directory exists
    ([_ensure_chat_dir]); it is taken to succeed, and a [World] describes
    the chat directory from then on: whether the directory was there
    before the constructor ran is not part of it. *)
Definition new_ChatBot (system_prompt : string) : ChatBot :=
  mkChatBot None [] system_prompt None.

(** [main]: the exit status and the final state.  Every pass through the
    loop reads the terminal, so one pass more than there are terminal
    events always leaves the loop. *)
Definition main (SYSTEM_PROMPT : string) (s : Startup) (w : World)
  (keys : list stdin_event) : option (exit_status * Proc) :=
  let p0 := mkProc (new_ChatBot SYSTEM_PROMPT) w keys [] in
  if negb (model_exists s) then Some (Exit 1, say p0 [NModelFileNotFound])
  else
    let '(b, out, loaded) := load_model (bot p0) s in
    let p1 := mkProc b w keys out in
    match loaded with
    | inl e => Some (Uncaught e, p1)
    | inr false => Some (Exit 1, p1)
    | inr true =>
        match run_loop (S (List.length keys)) p1 with
        | None => None
        | Some (c, p2) =>
            let p3 := match c with
                      | Throw e => if is_Exception e
                                   then say p2 [NUnexpectedError e] else p2
                      | _ => p2
                      end in
            let '(e_final, p4) := cleanup p3 in
            match e_final, c with
            | Some e, _ => Some (Uncaught e, p4)
            | None, Throw e =>
                if is_Exception e then Some (Exit 0, p4)
                else Some (Uncaught e, p4)
            | None, _ => Some (Exit 0, p4)
            end
        end
    end.

(* ================================================================== *)
(** ** Vocabulary of the properties *)

(** The history as [ChatBot.chat] has it once the user message is added. *)
Definition with_user_turn (b : ChatBot) (user_input : string) : ChatBot :=
  set_history b (chat_history b ++ [mkMessage "user" user_input])%list.

(** What the loop of [ChatBot.chat] makes of the events that engine [m]
    streams when [chat b user_input] calls it. *)
Definition generation (b : ChatBot) (m : Llama) (user_input : string) : consumed :=
  consume (script m (ncalls m) (chat_prompt (with_user_turn b user_input))) "" [].

(** Generation fails: the stream raised ([KeyboardInterrupt] or any other
    exception), or the trimmed text is empty or shorter than two
    characters. *)
Definition generation_failed (r : consumed) : bool :=
  match raised r with
  | Some _ => true
  | None =>
      (strip (response_text r) =? "")%string
      || (length (strip (response_text r)) <? 2)
  end.

(** Successive calls of [ChatBot.chat], with what each returned. *)
Fixpoint chats (b : ChatBot) (inputs : list string)
  : ChatBot * list (option string) :=
  match inputs with
  | [] => (b, [])
  | u :: us =>
      let '(b1, r, _) := chat b u in
      let '(b2, rs) := chats b1 us in
      (b2, r :: rs)
  end.

(** The roles of [n] exchanges: user, assistant, user, assistant, ... *)
Fixpoint alternating (n : nat) : list string :=
  match n with
  | O => []
  | S k => "user" :: "assistant" :: alternating k
  end.

Definition succeeded (r : option string) : bool :=
  match r with
  | Some _ => true
  | None => false
  end.

(** The role of the last turn, [None] for an empty store. *)
Definition last_role (h : list Message) : option string :=
  match rev h with
  | [] => None
  | t :: _ => Some (role t)
  end.

(** Sample data used to instantiate the properties. *)
Module Sample.

(** An engine that always streams Hel, lo, ! and the marker. *)
Definition hello_engine : Llama :=
  mkLlama (fun _ _ => [fragment "Hel"; fragment "lo"; fragment "!";
                       fragment "<|eot_id|>"]) 0.

(** An engine whose stream is interrupted at once. *)
Definition interrupted_engine : Llama :=
  mkLlama (fun _ _ => [Raise KeyboardInterrupt]) 0.

Definition helpful (m : Llama) : ChatBot :=
  mkChatBot (Some m) [] "You are helpful." None.

Definition noon : datetime := mkDatetime 2025 3 7 12 0 0.

(** A chat directory with the given entries, a clock that stands at
    noon, file times that grow with every write, and no write fault. *)
Definition quiet_world (fs : list (string * node)) : World :=
  mkWorld fs 0 (fun _ => noon) (fun n => inject_Z (100 + Z.of_nat n))
    (fun _ => None).

(** The same with a disk on which every [open] fails. *)
Definition broken_world (fs : list (string * node)) : World :=
  mkWorld fs 0 (fun _ => noon) (fun n => inject_Z (100 + Z.of_nat n))
    (fun _ => Some (OpenFails "Permission denied")).

Definition one_exchange : list Message :=
  [mkMessage "user" "Hi"; mkMessage "assistant" "Hello!"].

End Sample.

(** The last of a list of roles, [None] for the empty list. *)
Definition last_role_of_roles (roles : list string) : option string :=
  match rev roles with
  | [] => None
  | r :: _ => Some r
  end.

(** The answer that [ChatBot.clear_chat] takes as a confirmation: the next
    terminal event is a line that reads y once trimmed and lowered. *)
Definition confirmed (keys : list stdin_event) : bool :=
  match input keys with
  | (inr line, _) => (lower (strip line) =? "y")%string
  | (inl _, _) => false
  end.

(** The command name and argument that [main] reads in a line, when the
    line is a command. *)
Definition command_of (line : string) : option (string * option string) :=
  let user_input := strip line in
  if (user_input =? "")%string then None
  else if startswith user_input "/" then
    match split1 (tail user_input) with
    | [] => None
    | c :: more => Some (lower c, hd_error more)
    end
  else None.

Fixpoint all_digits (s : string) : bool :=
  match s with
  | "" => true
  | String c s' => is_digit c && all_digits s'
  end.

(** The shape chat_YYYYMMDD_HHMMSS.json. *)
Definition is_timestamp_name (s : string) : bool :=
  (length s =? 25)
  && (substring 0 5 s =? "chat_")%string
  && all_digits (substring 5 8 s)
  && (substring 13 1 s =? "_")%string
  && all_digits (substring 14 6 s)
  && (substring 20 5 s =? ".json")%string.

(** What [ChatBot.save_chat] hands to [open] and [json.dump] when the
    history is not empty: the world at that point, the file name and the
    record. *)
Definition save_request (b : ChatBot) (custom_filename : option string)
  (w : World) : World * string * save_data :=
  let '(filename, w1) := resolve_filename b custom_filename w in
  let '(now, w2) := datetime_now w1 in
  (w2, filename, mkSaveData now (system_prompt b) (chat_history b)).

(** The outcome of the write of that request. *)
Definition save_write (b : ChatBot) (custom_filename : option string)
  (w : World) : World * option exn :=
  let '(w2, filename, d) := save_request b custom_filename w in
  write_json w2 filename d.

(** Python's truth value of an optional string. *)
Definition given (o : option string) : bool :=
  match o with
  | None | Some "" => false
  | Some _ => true
  end.





(** The associated file name, when there is one, ends in [.json]: it does
    in every state that the program reaches, see
    [save_chat_keeps_file_name_ok]. *)
Definition file_name_ok (b : ChatBot) : bool :=
  match current_chat_file b with
  | Some f => endswith f ".json"
  | None => true
  end.



(** Sample states for the save-then-list property. *)
Module SampleFiles.

Definition saved_before (f : string) : ChatBot :=
  mkChatBot None Sample.one_exchange "S" (Some f).

Definition unsaved : ChatBot := mkChatBot None Sample.one_exchange "S" None.


(** A directory that holds a link named z.json to a missing file. *)
Definition dangling_world : World :=
  Sample.quiet_world [("z.json", DanglingLink)].



End SampleFiles.

(** Sample runs of [main]. *)
Module SampleRuns.

(** The model file is there and the engine loads. *)
Definition ready : Startup := mkStartup true (inr Sample.hello_engine).

Definition status (r : option (exit_status * Proc)) : option exit_status :=
  option_map fst r.

(** The terminal events that the process left unread. *)
Definition unread (r : option (exit_status * Proc))
  : option (list stdin_event) :=
  option_map (fun x => stdin (snd x)) r.

Definition shown (r : option (exit_status * Proc)) : option (list notice) :=
  option_map (fun x => stdout (snd x)) r.

End SampleRuns.

(** The turns come in exchanges: a user turn followed by an assistant
    turn, any number of times. *)
Definition exchanges_only (h : list Message) : Prop :=
  exists n, map role h = alternating n.

(* ================================================================== *)
(** ** Vocabulary of the further properties *)

(** The text that the notices put on the screen as generated tokens. *)
Fixpoint printed_text (out : list notice) : string :=
  match out with
  | [] => ""
  | NToken t :: rest => t ++ printed_text rest
  | _ :: rest => printed_text rest
  end.

(** The text that the loop of [ChatBot.chat] reads in a yielded output:
    the text of the first choice, nothing when there is no choice. *)
Definition token_of (o : output) : string :=
  match choices o with
  | Some (ch :: _) => match text ch with Some t => t | None => "" end
  | _ => ""
  end.

(** An event that the loop of [ChatBot.chat] passes without leaving: an
    output without choices, or one whose first choice has no stop reason
    and no marker in its text. *)
Definition passes (ev : stream_event) : bool :=
  match ev with
  | Raise _ => false
  | Yield o =>
      match choices o with
      | Some (ch :: _) =>
          negb (is_stop (finish_reason ch))
          && negb (contains "<|eot_id|>" (token_of o))
      | _ => true
      end
  end.

Definition event_text (ev : stream_event) : string :=
  match ev with
  | Yield o => token_of o
  | Raise _ => ""
  end.

Fixpoint concat_texts (evs : list stream_event) : string :=
  match evs with
  | [] => ""
  | ev :: rest => event_text ev ++ concat_texts rest
  end.

(** The blocks of the turns, one after the other. *)
Fixpoint format_messages (h : list Message) : string :=
  match h with
  | [] => ""
  | msg :: rest => format_message msg ++ format_messages rest
  end.

(** The first character of a string, if any. *)
Definition first_char (s : string) : option ascii :=
  match s with
  | "" => None
  | String c _ => Some c
  end.

(** A string that [strip] leaves as it is: empty, or with a character
    that is not whitespace at each end. *)
Definition trimmed (s : string) : bool :=
  match s with
  | "" => true
  | String c _ => negb (is_space c) && negb (is_space (last_char s c))
  end.

(** The command names that [main] knows. *)
Definition KNOWN_COMMANDS : list string :=
  ["quit"; "exit"; "q"; "help"; "clear"; "save"; "list"; "stats"; "history"].

(** [MODEL_CONFIG['n_ctx']] *)
Definition N_CTX : Z := 24576.

Definition total_chars (h : list Message) : nat :=
  fold_right (fun msg n => length (content msg) + n) 0 h.

(** [total_estimated] of [ChatBot.show_stats] (lines 259-262). *)
Definition total_estimated (b : ChatBot) : nat :=
  total_chars (chat_history b) / 4 + length (system_prompt b) / 4.

(** The context usage that [ChatBot.show_stats] prints when the estimate
    is positive (lines 273-275). *)
Definition usage_pct (b : ChatBot) : option Z :=
  if 0 <? total_estimated b
  then Some (Z.min 100 (Z.of_nat (total_estimated b) * 100 / N_CTX))
  else None.

(** Whether [ChatBot.show_stats] prints the context warning (line 277). *)
Definition context_warning (b : ChatBot) : bool :=
  match usage_pct b with
  | Some pct => (85 <? pct)%Z
  | None => false
  end.



(** The number of calls that the engine of a bot has answered, 0 when no
    engine is loaded. *)
Definition engine_calls (b : ChatBot) : nat :=
  match llm b with
  | Some m => ncalls m
  | None => 0
  end.

(** A line that [main] sends to [ChatBot.chat]: not empty once trimmed,
    and not beginning with a slash. *)
Definition is_chat_line (line : string) : bool :=
  negb (strip line =? "")%string && negb (startswith (strip line) "/").

(* ================================================================== *)
(** ** Facts about strings *)

Section StringFacts.

Lemma append_nil_r (s : string) : s ++ "" = s.
Proof. induction s as [|c s IH]; simpl; [reflexivity | now rewrite IH]. Qed.

Lemma append_assoc (a b c : string) : (a ++ b) ++ c = a ++ (b ++ c).
Proof. induction a as [|x a IH]; simpl; [reflexivity | now rewrite IH]. Qed.

Lemma length_append (a b : string) : length (a ++ b) = length a + length b.
Proof. induction a as [|x a IH]; simpl; [reflexivity | now rewrite IH]. Qed.

Lemma length_zero_iff (s : string) : length s = 0 <-> s = "".
Proof. destruct s; simpl; split; intro H; congruence. Qed.

Lemma prefix_append (a b : string) : prefix a (a ++ b) = true.
Proof.
  induction a as [|x a IH]; simpl.
  - now destruct b.
  - destruct (ascii_dec x x) as [_|ne]; [exact IH | now elim ne].
Qed.

Lemma prefix_split (p s : string) :
  prefix p s = true -> exists r, s = p ++ r.
Proof.
  revert s; induction p as [|x p IH]; intros s H.
  - now exists s.
  - destruct s as [|y s]; simpl in H; [discriminate|].
    destruct (ascii_dec x y) as [->|]; [|discriminate].
    destruct (IH _ H) as [r ->]. now exists r.
Qed.

Lemma endswith_append (a suf : string) : endswith (a ++ suf) suf = true.
Proof.
  induction a as [|x a IH]; simpl.
  - destruct suf; simpl; rewrite ?String.eqb_refl, ?Ascii.eqb_refl; reflexivity.
  - rewrite IH. apply orb_true_r.
Qed.

Lemma endswith_split (s suf : string) :
  endswith s suf = true -> exists a, s = a ++ suf.
Proof.
  induction s as [|x s IH]; cbn [endswith]; intro H.
  - destruct suf; [now exists ""|discriminate].
  - apply orb_true_iff in H as [H|H].
    + apply String.eqb_eq in H. now exists "".
    + destruct (IH H) as [a ->]. now exists (String x a).
Qed.

Lemma last_char_append (a b : string) (d : ascii) :
  b <> "" -> last_char (a ++ b) d = last_char b d.
Proof.
  intro nb. revert d; induction a as [|x a IH]; intro d; simpl.
  - reflexivity.
  - rewrite IH. destruct b; [now elim nb | reflexivity].
Qed.

Lemma endswith_last_char (s suf : string) (d : ascii) :
  suf <> "" -> endswith s suf = true -> last_char s d = last_char suf d.
Proof.
  intros ns H. destruct (endswith_split _ _ H) as [a ->].
  now apply last_char_append.
Qed.

End StringFacts.

(* ================================================================== *)
(** ** The prompt formatter *)

Section PromptFormatter.

Lemma fold_format_append (l : list Message) (init : string) :
  fold_left (fun formatted msg => formatted ++ format_message msg) l init
  = init ++ fold_left (fun formatted msg => formatted ++ format_message msg) l "".
Proof.
  revert init; induction l as [|m l IH]; intro init; simpl.
  - now rewrite append_nil_r.
  - rewrite IH, (IH (format_message m)). now rewrite append_assoc.
Qed.

(** The prompt is the begin marker, a body, and the assistant header. *)
Lemma chat_prompt_split (b : ChatBot) :
  exists body, chat_prompt b = BEGIN_OF_TEXT ++ body ++ header "assistant".
Proof.
  exists ("<|start_header_id|>system<|end_header_id|>" ++ nl ++ nl
          ++ system_prompt b ++ "<|eot_id|>"
          ++ fold_left (fun formatted msg => formatted ++ format_message msg)
               (chat_history b) "").
  unfold chat_prompt, format_chat_history.
  rewrite fold_format_append.
  unfold BEGIN_OF_TEXT, header.
  change ("<|begin_of_text|><|start_header_id|>system<|end_header_id|>" ++ nl ++ nl
          ++ system_prompt b ++ "<|eot_id|>")
    with ("<|begin_of_text|>" ++ ("<|start_header_id|>system<|end_header_id|>" ++ nl ++ nl
          ++ system_prompt b ++ "<|eot_id|>")).
  rewrite !append_assoc. reflexivity.
Qed.

End PromptFormatter.

(** C4: for every system prompt and every sequence of turns, the prompt
    sent to the engine begins with the marker <|begin_of_text|> and ends
    with the assistant header, which is left open: the prompt is the
    marker, a body and the header, and it does not end with the
    end-of-turn marker. *)
Theorem C4_prompt_begins_and_ends_open (b : ChatBot) :
  startswith (chat_prompt b) "<|begin_of_text|>" = true
  /\ endswith (chat_prompt b)
       ("<|start_header_id|>assistant<|end_header_id|>" ++ nl ++ nl) = true
  /\ endswith (chat_prompt b) "<|eot_id|>" = false.
Proof.
  destruct (chat_prompt_split b) as [body E].
  split; [|split].
  - unfold startswith. rewrite E. apply prefix_append.
  - rewrite E. rewrite <- append_assoc. apply endswith_append.
  - destruct (endswith (chat_prompt b) "<|eot_id|>") eqn:H; [|reflexivity].
    apply (endswith_last_char _ _ "x"%char) in H; [|discriminate].
    rewrite E, <- append_assoc in H.
    rewrite last_char_append in H by discriminate.
    vm_compute in H. discriminate.
Qed.

(* ================================================================== *)
(** ** The generation stream consumer *)

Section StreamConsumer.

Lemma replace_from_skip (old new : string) (k : nat) (s : string) :
  replace_from old new k s = replace_from old new 0 (drop k s).
Proof.
  revert k; induction s as [|c s IH]; intros [|k]; try reflexivity.
  cbn [replace_from drop]. apply IH.
Qed.

(** Removing a marker that occurs in [s]: the text before the first
    occurrence is kept, and so is the text after it, from which the
    further occurrences are removed in turn. *)
Lemma replace_first_occurrence (old s : string) :
  old <> "" -> contains old s = true ->
  replace old "" s = text_before old s ++ replace old "" (text_after old s).
Proof.
  intros ne. destruct old as [|o old']; [now elim ne|]. unfold replace.
  induction s as [|c s IH]; intro H.
  - discriminate H.
  - cbn [contains] in H. cbn [replace_from text_before text_after].
    destruct (prefix (String o old') (String c s)) eqn:P.
    + cbn [append]. rewrite replace_from_skip.
      replace (length (String o old') - 1) with (length old')
        by (cbn [length]; lia).
      reflexivity.
    + cbn [orb] in H. cbn [append]. now rewrite (IH H).
Qed.

(** A fragment without the marker is left as it is by [replace]. *)
Lemma replace_absent (old s : string) :
  old <> "" -> contains old s = false -> replace old "" s = s.
Proof.
  intros ne. destruct old as [|o old']; [now elim ne|]. unfold replace.
  induction s as [|c s IH]; intro H; [reflexivity|].
  cbn [contains] in H. apply orb_false_iff in H as [P H].
  cbn [replace_from]. rewrite P. now rewrite (IH H).
Qed.

End StreamConsumer.

(** The scenario of the specification: the fragments Hel, lo, ! and the
    stop marker accumulate to Hello!. *)
Example consume_hello :
  response_text
    (consume [fragment "Hel"; fragment "lo"; fragment "!"; fragment "<|eot_id|>"]
       "" [])
  = "Hello!".
Proof. reflexivity. Qed.

(** C1, as stated, fails: a fragment that carries text after the marker
    does not leave only the text that precedes the marker. *)
Lemma C1_counterexample_text_after_marker_is_kept :
  ~ (forall (token : string) (rest : list stream_event) (acc : string)
            (out : list notice),
        contains "<|eot_id|>" token = true ->
        response_text (consume (fragment token :: rest) acc out)
        = acc ++ text_before "<|eot_id|>" token).
Proof.
  intro H. specialize (H "ab<|eot_id|>cd" [] "" [] eq_refl).
  vm_compute in H. discriminate H.
Qed.

(** C1 (amended): when the consumer reaches a fragment whose finish reason
    is not stop and whose text contains the marker <|eot_id|>, it removes
    every occurrence of the marker from the fragment, accumulates and
    emits what is left of it (the text before the first occurrence and the
    text after it) if that is not empty, and stops: the result does not
    depend on the events that follow. *)
Theorem C1_marker_fragment_is_cleaned_and_ends_stream
  (ch : choice) (others : list choice) (rest : list stream_event)
  (acc : string) (out : list notice) (token : string) :
  text ch = Some token ->
  is_stop (finish_reason ch) = false ->
  contains "<|eot_id|>" token = true ->
  let token' := replace "<|eot_id|>" "" token in
  token' = text_before "<|eot_id|>" token
           ++ replace "<|eot_id|>" "" (text_after "<|eot_id|>" token)
  /\ consume (Yield (mkOutput (Some (ch :: others))) :: rest) acc out
     = (if (token' =? "")%string
        then mkConsumed acc out None
        else mkConsumed (acc ++ token') (out ++ [NToken token'])%list None)
  /\ consume (Yield (mkOutput (Some (ch :: others))) :: rest) acc out
     = consume [Yield (mkOutput (Some (ch :: others)))] acc out.
Proof.
  intros Ht Hs Hc token'.
  split; [apply replace_first_occurrence; [discriminate | exact Hc]|].
  cbn [consume choices]. rewrite Ht, Hs, Hc. fold token'.
  split; [|reflexivity].
  destruct token'; reflexivity.
Qed.

Lemma C1_marker_fragment_witness :
  consume (Yield (mkOutput (Some [mkChoice (Some "ab<|eot_id|>cd") None]))
           :: [fragment "zz"]) "x" []
  = mkConsumed "xabcd" [NToken "abcd"] None.
Proof.
  exact (proj1 (proj2 (C1_marker_fragment_is_cleaned_and_ends_stream
           (mkChoice (Some "ab<|eot_id|>cd") None) [] [fragment "zz"] "x" []
           "ab<|eot_id|>cd" eq_refl eq_refl eq_refl))).
Defined.

(* ================================================================== *)
(** ** The chat call *)

Section ChatCall.

Variables (b : ChatBot) (m : Llama) (user_input : string).
Hypothesis loaded : llm b = Some m.

(** On a failed generation the call gives back the history it found. *)
Lemma chat_failure :
  generation_failed (generation b m user_input) = true ->
  exists out,
    chat b user_input
    = (mkChatBot (Some (mkLlama (script m) (S (ncalls m)))) (chat_history b) (system_prompt b)
         (current_chat_file b), None, out).
Proof.
  unfold generation_failed, generation, chat. rewrite loaded.
  unfold call, with_user_turn. cbn -[consume chat_prompt strip].
  unfold pop. rewrite removelast_last.
  destruct (raised _) as [e|].
  - intros _. destruct e; eexists; reflexivity.
  - intros ->. eexists; reflexivity.
Qed.

(** Otherwise it appends the user turn and the assistant turn. *)
Lemma chat_success :
  generation_failed (generation b m user_input) = false ->
  let response := strip (response_text (generation b m user_input)) in
  chat b user_input
  = (mkChatBot (Some (mkLlama (script m) (S (ncalls m))))
       (chat_history b
        ++ [mkMessage "user" user_input; mkMessage "assistant" response])%list
       (system_prompt b) (current_chat_file b),
     Some response, printed (generation b m user_input)).
Proof.
  unfold generation_failed, generation, chat. rewrite loaded.
  unfold call, with_user_turn. cbn -[consume chat_prompt strip].
  destruct (raised _) as [e|]; [discriminate|].
  intros ->. rewrite <- app_assoc. reflexivity.
Qed.

End ChatCall.

(** Whatever happens, a call leaves the history as it was or adds one
    user turn followed by one assistant turn. *)
Lemma chat_history_cases (b : ChatBot) (user_input : string) :
  (snd (fst (chat b user_input)) = None
   /\ chat_history (fst (fst (chat b user_input))) = chat_history b)
  \/ (exists response,
        snd (fst (chat b user_input)) = Some response
        /\ chat_history (fst (fst (chat b user_input)))
           = (chat_history b
              ++ [mkMessage "user" user_input; mkMessage "assistant" response])%list).
Proof.
  destruct (llm b) as [m|] eqn:L.
  - destruct (generation_failed (generation b m user_input)) eqn:G.
    + destruct (chat_failure b m user_input L G) as [out ->]. now left.
    + rewrite (chat_success b m user_input L G). right. eexists. split; reflexivity.
  - unfold chat. rewrite L. now left.
Qed.

(** A line that is not empty once trimmed and does not begin with a slash
    goes to [ChatBot.chat], and the loop goes on. *)
Lemma iteration_chat_line (p : Proc) (line : string) (rest : list stdin_event) :
  stdin p = Line line :: rest ->
  strip line <> "" ->
  startswith (strip line) "/" = false ->
  iteration p
  = (Next, mkProc (fst (fst (chat (bot p) (strip line)))) (world p) rest
             (stdout p ++ snd (chat (bot p) (strip line)))%list).
Proof.
  intros Hin Hne Hsl. unfold iteration, loop_body. rewrite Hin. cbn [input].
  apply String.eqb_neq in Hne. rewrite Hne, Hsl.
  cbn [bot world stdin stdout].
  destruct (chat (bot p) (strip line)) as [[b' r] out]. reflexivity.
Qed.

(** C2: when generation fails on a chat call (the trimmed response is
    empty or shorter than two characters, the stream is interrupted, or
    the stream raises any other error), the call returns nothing and the
    turn store is what it was before the call: the user turn is removed,
    no assistant turn is added, the length is unchanged.  In the command
    loop the pass that made the call ends normally and the loop goes on. *)
Theorem C2_failed_generation_rolls_back
  (b : ChatBot) (m : Llama) (user_input : string) :
  llm b = Some m ->
  generation_failed (generation b m user_input) = true ->
  (exists b' out,
      chat b user_input = (b', None, out)
      /\ chat_history b' = chat_history b
      /\ List.length (chat_history b') = List.length (chat_history b)
      /\ system_prompt b' = system_prompt b
      /\ current_chat_file b' = current_chat_file b)
  /\ (forall (w : World) (line : string) (rest : list stdin_event)
             (so : list notice),
         strip line = user_input ->
         user_input <> "" ->
         startswith user_input "/" = false ->
         exists p',
           iteration (mkProc b w (Line line :: rest) so) = (Next, p')
           /\ chat_history (bot p') = chat_history b
           /\ world p' = w
           /\ stdin p' = rest).
Proof.
  intros L G. destruct (chat_failure b m user_input L G) as [out E].
  split.
  - eexists; eexists. split; [exact E|]. cbn. repeat split; reflexivity.
  - intros w line rest so <- Hne Hsl.
    eexists. split.
    + apply iteration_chat_line; [reflexivity | exact Hne | exact Hsl].
    + cbn [bot world stdin]. rewrite E. repeat split; reflexivity.
Qed.

Lemma C2_failed_generation_witness :
  chat_history
    (fst (fst (chat (Sample.helpful Sample.interrupted_engine) "Hi"))) = [].
Proof.
  destruct (C2_failed_generation_rolls_back
              (Sample.helpful Sample.interrupted_engine)
              Sample.interrupted_engine "Hi" eq_refl eq_refl)
    as [[b' [out [E [H _]]]] _].
  rewrite E. exact H.
Defined.

(* ================================================================== *)
(** ** Sequences of chat calls *)

Section Exchanges.

Lemma alternating_snoc (n : nat) :
  (alternating n ++ ["user"; "assistant"])%list = alternating (S n).
Proof.
  induction n as [|n IH]; [reflexivity|].
  cbn [alternating app]. rewrite IH. reflexivity.
Qed.

Lemma alternating_length (n : nat) : List.length (alternating n) = 2 * n.
Proof. induction n as [|n IH]; cbn [alternating List.length]; lia. Qed.

Lemma last_role_alternating (n : nat) :
  last_role_of_roles (alternating n) <> Some "user".
Proof.
  destruct n as [|n]; [discriminate|].
  rewrite <- alternating_snoc. unfold last_role_of_roles.
  rewrite rev_app_distr. discriminate.
Qed.

(** The roles after a sequence of calls: one exchange for every call
    that returned a response. *)
Lemma chats_roles (inputs : list string) :
  forall (b : ChatBot) (k : nat),
    map role (chat_history b) = alternating k ->
    map role (chat_history (fst (chats b inputs)))
    = alternating (k + count_occ Bool.bool_dec
                         (map succeeded (snd (chats b inputs))) true).
Proof.
  induction inputs as [|u us IH]; intros b k Hk.
  - cbn. now rewrite Nat.add_0_r.
  - cbn [chats].
    destruct (chat_history_cases b u) as [[Hr Hh]|[resp [Hr Hh]]];
      destruct (chat b u) as [[b1 r] out]; cbn [fst snd] in Hr, Hh; subst r;
      destruct (chats b1 us) as [b2 rs] eqn:E;
      cbn [fst snd map succeeded count_occ].
    + destruct (Bool.bool_dec false true); [discriminate|].
      replace b2 with (fst (chats b1 us)) by now rewrite E.
      replace rs with (snd (chats b1 us)) by now rewrite E.
      apply IH. now rewrite Hh.
    + destruct (Bool.bool_dec true true) as [_|ne]; [|now elim ne].
      replace b2 with (fst (chats b1 us)) by now rewrite E.
      replace rs with (snd (chats b1 us)) by now rewrite E.
      rewrite Nat.add_succ_r, <- Nat.add_succ_l.
      apply IH. rewrite Hh, map_app. cbn [map role].
      rewrite Hk. apply alternating_snoc.
Qed.

Lemma chats_length (inputs : list string) (b : ChatBot) :
  List.length (snd (chats b inputs)) = List.length inputs.
Proof.
  revert b; induction inputs as [|u us IH]; intro b; [reflexivity|].
  cbn [chats]. destruct (chat b u) as [[b1 r] out].
  specialize (IH b1). destruct (chats b1 us) as [b2 rs].
  cbn [snd List.length] in *. now rewrite IH.
Qed.

Lemma count_all_true (l : list bool) :
  forallb (fun x => x) l = true ->
  count_occ Bool.bool_dec l true = List.length l.
Proof.
  induction l as [|x l IH]; [reflexivity|].
  cbn [forallb count_occ List.length]. intro H.
  apply andb_true_iff in H as [-> H].
  destruct (Bool.bool_dec true true) as [_|ne]; [|now elim ne].
  now rewrite (IH H).
Qed.

Lemma forallb_map_id {A : Type} (f : A -> bool) (l : list A) :
  forallb (fun x => x) (map f l) = forallb f l.
Proof.
  induction l as [|x l IH]; [reflexivity|].
  cbn [map forallb]. now rewrite IH.
Qed.

Lemma last_role_map (h : list Message) :
  last_role h = last_role_of_roles (map role h).
Proof.
  unfold last_role, last_role_of_roles. rewrite <- map_rev.
  now destruct (rev h).
Qed.

End Exchanges.

(** C3: starting from an empty turn store, after a sequence of N chat
    calls that all succeed the store holds exactly 2N turns whose roles
    alternate user, assistant, beginning with user; and after any sequence
    of chat calls, successful or not, the store does not end with a user
    turn. *)
Theorem C3_successful_exchanges_alternate
  (b : ChatBot) (inputs : list string) :
  chat_history b = [] ->
  let b' := fst (chats b inputs) in
  let returned := snd (chats b inputs) in
  (forallb succeeded returned = true ->
     List.length (chat_history b') = 2 * List.length inputs
     /\ map role (chat_history b') = alternating (List.length inputs))
  /\ last_role (chat_history b') <> Some "user".
Proof.
  intros Hb b' returned.
  assert (R := chats_roles inputs b 0).
  rewrite Hb in R. specialize (R eq_refl). cbn [Nat.add] in R.
  fold b' returned in R.
  split.
  - intro Hall.
    assert (C : count_occ Bool.bool_dec (map succeeded returned) true
                = List.length inputs).
    { rewrite count_all_true.
      - rewrite length_map. apply chats_length.
      - rewrite forallb_map_id. exact Hall. }
    rewrite C in R. split; [|exact R].
    rewrite <- (length_map role), R. apply alternating_length.
  - rewrite last_role_map, R. apply last_role_alternating.
Qed.

Lemma C3_successful_exchanges_witness :
  map role (chat_history
              (fst (chats (Sample.helpful Sample.hello_engine) ["Hi"; "Again"])))
  = ["user"; "assistant"; "user"; "assistant"].
Proof.
  exact (proj2 (proj1 (C3_successful_exchanges_alternate
                        (Sample.helpful Sample.hello_engine) ["Hi"; "Again"]
                        eq_refl) eq_refl)).
Defined.

(* ================================================================== *)
(** ** Clearing the conversation *)

(** C7: on a non-empty turn store, a clear request that the caller does
    not confirm leaves the bot, hence the turn store and the associated
    file name, unchanged; a confirmed one empties the turn store and
    drops the associated file name. *)
Theorem C7_clear_needs_confirmation (b : ChatBot) (keys : list stdin_event) :
  chat_history b <> [] ->
  let b' := fst (fst (fst (clear_chat b keys))) in
  (confirmed keys = false -> b' = b)
  /\ (confirmed keys = true ->
        chat_history b' = [] /\ current_chat_file b' = None
        /\ system_prompt b' = system_prompt b /\ llm b' = llm b).
Proof.
  intro Hne. unfold clear_chat, confirmed.
  destruct (chat_history b) as [|t h] eqn:E; [now elim Hne|].
  destruct (input keys) as [[e|line] rest]; cbn [fst].
  - split; [reflexivity | discriminate].
  - destruct (lower (strip line) =? "y")%string; cbn [fst].
    + split; [discriminate|]. intros _. repeat split; reflexivity.
    + split; [reflexivity | discriminate].
Qed.

Lemma C7_clear_witness :
  (fst (fst (fst (clear_chat
      (mkChatBot None Sample.one_exchange "S" (Some "a.json")) [Line "n"])))
   = mkChatBot None Sample.one_exchange "S" (Some "a.json"))
  /\ chat_history (fst (fst (fst (clear_chat
      (mkChatBot None Sample.one_exchange "S" (Some "a.json")) [Line " Y "]))))
     = [].
Proof.
  split.
  - apply (C7_clear_needs_confirmation
             (mkChatBot None Sample.one_exchange "S" (Some "a.json"))
             [Line "n"]); [discriminate | reflexivity].
  - apply (C7_clear_needs_confirmation
             (mkChatBot None Sample.one_exchange "S" (Some "a.json"))
             [Line " Y "]); [discriminate | reflexivity].
Defined.

(* ================================================================== *)
(** ** Saving the conversation *)

(** C10: with an empty turn store a save call only reports a warning: the
    world, hence every file, is left as it was, and so is the bot with its
    associated file name. *)
Theorem C10_save_of_empty_chat_is_noop
  (b : ChatBot) (custom_filename : option string) (w : World) :
  chat_history b = [] ->
  save_chat b custom_filename w = (b, w, [NNoChatToSave]).
Proof. intro H. unfold save_chat. now rewrite H. Qed.

Lemma C10_save_of_empty_chat_witness :
  save_chat (mkChatBot None [] "S" (Some "a.json")) (Some "b")
    (Sample.quiet_world [])
  = (mkChatBot None [] "S" (Some "a.json"), Sample.quiet_world [],
     [NNoChatToSave]).
Proof.
  exact (C10_save_of_empty_chat_is_noop
           (mkChatBot None [] "S" (Some "a.json")) (Some "b")
           (Sample.quiet_world []) eq_refl).
Defined.

Section Saving.

Variables (b : ChatBot) (custom_filename : option string) (w : World).
Hypothesis not_empty : chat_history b <> [].

(** [save_chat] in terms of the write it requests. *)
Lemma save_chat_write :
  save_chat b custom_filename w
  = match save_write b custom_filename w with
    | (w3, None) =>
        let name := snd (fst (save_request b custom_filename w)) in
        (set_file b (Some name), w3, [NChatSaved name])
    | (w3, Some e) => (b, w3, [NErrorSaving e])
    end.
Proof.
  unfold save_chat, save_write, save_request.
  destruct (chat_history b) as [|t h] eqn:E; [now elim not_empty|].
  destruct (resolve_filename b custom_filename w) as [filename w1].
  destruct (datetime_now w1) as [now w2].
  destruct (write_json w2 filename _) as [w3 [e|]]; reflexivity.
Qed.

(** The request carries the resolved name. *)
Lemma save_request_name :
  snd (fst (save_request b custom_filename w))
  = fst (resolve_filename b custom_filename w).
Proof.
  unfold save_request.
  destruct (resolve_filename b custom_filename w) as [filename w1].
  now destruct (datetime_now w1).
Qed.

End Saving.

(** Reading a command line: the pass of the loop that finds the command
    save calls [ChatBot.save_chat] and goes on. *)
Lemma loop_body_save (p : Proc) (line : string) (rest : list stdin_event)
  (args : option string) :
  stdin p = Line line :: rest ->
  command_of line = Some ("save", args) ->
  loop_body p
  = (Next, mkProc (fst (fst (save_chat (bot p) args (world p))))
             (snd (fst (save_chat (bot p) args (world p)))) rest
             (stdout p ++ snd (save_chat (bot p) args (world p)))%list).
Proof.
  intros Hin Hc. unfold command_of in Hc. unfold loop_body.
  rewrite Hin. cbn [input].
  destruct (strip line =? "")%string; [discriminate|].
  destruct (startswith (strip line) "/"); [|discriminate].
  destruct (split1 (tail (strip line))) as [|c more]; [discriminate|].
  injection Hc as Hl Ha. rewrite Hl. cbn [bot world stdin stdout].
  change (mem_string "save" ["quit"; "exit"; "q"]) with false.
  change ("save" =? "help")%string with false.
  change ("save" =? "clear")%string with false.
  change ("save" =? "save")%string with true.
  cbv iota.
  replace (match more with a :: _ => Some a | [] => None end) with args
    by (now rewrite <- Ha).
  destruct (save_chat (bot p) args (world p)) as [[b' w'] out]. reflexivity.
Qed.

(** C6: when the write of a save call fails (at [open] or during
    [json.dump]), the call reports the error and returns the bot it was
    given, so the turn store, the system prompt and the associated file
    name are those of before the call; the pass of the command loop that
    made the call ends normally and the loop goes on. *)
Theorem C6_failed_save_keeps_conversation
  (b : ChatBot) (custom_filename : option string) (w w3 : World) (e : exn) :
  chat_history b <> [] ->
  save_write b custom_filename w = (w3, Some e) ->
  save_chat b custom_filename w = (b, w3, [NErrorSaving e])
  /\ (forall (line : string) (rest : list stdin_event) (so : list notice),
         command_of line = Some ("save", custom_filename) ->
         iteration (mkProc b w (Line line :: rest) so)
         = (Next, mkProc b w3 rest (so ++ [NErrorSaving e])%list)).
Proof.
  intros Hne Hw.
  assert (E : save_chat b custom_filename w = (b, w3, [NErrorSaving e])).
  { rewrite (save_chat_write b custom_filename w Hne), Hw. reflexivity. }
  split; [exact E|].
  intros line rest so Hc. unfold iteration.
  rewrite (loop_body_save (mkProc b w (Line line :: rest) so) line rest
             custom_filename eq_refl Hc).
  cbn [bot world stdout]. rewrite E. reflexivity.
Qed.

Lemma C6_failed_save_witness :
  save_chat (mkChatBot None Sample.one_exchange "S" (Some "a.json"))
    (Some "backup") (Sample.broken_world [])
  = (mkChatBot None Sample.one_exchange "S" (Some "a.json"),
     tick (tick (Sample.broken_world [])),
     [NErrorSaving (OSError "Permission denied")]).
Proof.
  apply (C6_failed_save_keeps_conversation
           (mkChatBot None Sample.one_exchange "S" (Some "a.json"))
           (Some "backup") (Sample.broken_world [])
           (tick (tick (Sample.broken_world [])))
           (OSError "Permission denied")); [discriminate | reflexivity].
Defined.

Section FileNames.

Lemma is_digit_digit_char (n : nat) : is_digit (digit_char n) = true.
Proof.
  unfold is_digit, digit_char.
  assert (n mod 10 < 10) by (apply Nat.mod_upper_bound; discriminate).
  rewrite nat_ascii_embedding by lia.
  apply andb_true_iff; split; apply Nat.leb_le; lia.
Qed.

(** A name made from the clock has the shape chat_YYYYMMDD_HHMMSS.json. *)
Lemma timestamp_name_shape (t : datetime) :
  is_timestamp_name ("chat_" ++ strftime t ++ ".json") = true.
Proof.
  unfold is_timestamp_name, strftime, pad4, pad2.
  cbn [append length substring all_digits Nat.eqb].
  rewrite !is_digit_digit_char. reflexivity.
Qed.

Lemma lookup_store (name : string) (n : node) (fs : list (string * node)) :
  lookup name (store name n fs) = Some n.
Proof.
  induction fs as [|[k v] fs IH]; cbn [store lookup].
  - now rewrite String.eqb_refl.
  - destruct (k =? name)%string eqn:E; cbn [lookup]; rewrite E;
      [reflexivity | exact IH].
Qed.

(** Writing under a name that is there replaces the entry where it is. *)
Lemma store_existing_keys (name : string) (n : node)
  (fs : list (string * node)) :
  lookup name fs <> None -> map fst (store name n fs) = map fst fs.
Proof.
  induction fs as [|[k v] fs IH]; cbn [store lookup]; intro H.
  - now elim H.
  - destruct (k =? name)%string; cbn [map fst]; [reflexivity|].
    now rewrite (IH H).
Qed.

Lemma write_json_success (w w' : World) (name : string) (d : save_data) :
  write_json w name d = (w', None) ->
  files w' = store name (File (fs_clock w (ticks w)) (Saved d)) (files w).
Proof.
  unfold write_json.
  destruct (contains NUL name); [discriminate|].
  destruct (write_faults w (ticks w)) as [[msg|msg]|]; try discriminate.
  intro H. injection H as <-. reflexivity.
Qed.

Lemma resolve_filename_given (b : ChatBot) (o : option string) (w : World) :
  given (Some (fst (resolve_filename b o w))) = true.
Proof.
  unfold resolve_filename.
  destruct o as [[|c s]|].
  - destruct (current_chat_file b) as [[|c s]|]; reflexivity.
  - destruct (endswith (String c s) ".json"); reflexivity.
  - destruct (current_chat_file b) as [[|c s]|]; reflexivity.
Qed.

(** Without an explicit name, the associated name is used as it is and
    the clock is not read. *)
Lemma resolve_filename_associated (b : ChatBot) (w : World) (f : string) :
  current_chat_file b = Some f -> given (Some f) = true ->
  resolve_filename b None w = (f, w).
Proof.
  intros E G. unfold resolve_filename. rewrite E.
  destruct f; [discriminate G | reflexivity].
Qed.

End FileNames.

(** C5: a save call on a non-empty turn store resolves the file name in
    this order: the explicit name if one is given, with .json appended
    when it does not end with it; otherwise the name already associated
    with the conversation; otherwise chat_YYYYMMDD_HHMMSS.json made from
    the clock.  When the write succeeds the conversation is associated
    with the resolved name and the file of that name holds the record;
    the next save without an explicit name resolves to the same name, and
    when it succeeds it rewrites that entry and creates no other. *)
Theorem C5_save_resolves_name_and_associates
  (b : ChatBot) (custom_filename : option string) (w : World) :
  chat_history b <> [] ->
  let name := fst (resolve_filename b custom_filename w) in
  (forall c, custom_filename = Some c -> c <> "" ->
     name = if endswith c ".json" then c else c ++ ".json")
  /\ (given custom_filename = false ->
      forall f, current_chat_file b = Some f -> f <> "" -> name = f)
  /\ (given custom_filename = false -> given (current_chat_file b) = false ->
      name = "chat_" ++ strftime (wall_clock w (ticks w)) ++ ".json"
      /\ is_timestamp_name name = true)
  /\ (forall w', save_write b custom_filename w = (w', None) ->
      exists b',
        save_chat b custom_filename w = (b', w', [NChatSaved name])
        /\ current_chat_file b' = Some name
        /\ chat_history b' = chat_history b
        /\ (exists t d, lookup name (files w') = Some (File t (Saved d))
                        /\ sd_messages d = chat_history b)
        /\ fst (resolve_filename b' None w') = name
        /\ (forall w'', save_write b' None w' = (w'', None) ->
              map fst (files w'') = map fst (files w')
              /\ exists t d, lookup name (files w'') = Some (File t (Saved d))
                             /\ sd_messages d = chat_history b)).
Proof.
  intros Hne name. split; [|split; [|split]].
  - intros c -> Hc. subst name. unfold resolve_filename.
    destruct c; [now elim Hc | reflexivity].
  - intros G f Hf Hfne. subst name. unfold resolve_filename.
    rewrite Hf. destruct custom_filename as [[|c s]|]; try discriminate G;
      (destruct f; [now elim Hfne | reflexivity]).
  - intros G Gf.
    assert (E : name = "chat_" ++ strftime (wall_clock w (ticks w)) ++ ".json").
    { subst name. unfold resolve_filename.
      destruct custom_filename as [[|c s]|]; try discriminate G;
        destruct (current_chat_file b) as [[|c' s']|]; try discriminate Gf;
        reflexivity. }
    split; [exact E|]. rewrite E. apply timestamp_name_shape.
  - intros w' Hw.
    assert (Hn := save_request_name b custom_filename w). fold name in Hn.
    assert (Es := save_chat_write b custom_filename w Hne).
    rewrite Hw, Hn in Es. cbv zeta in Es.
    exists (set_file b (Some name)). split; [exact Es|].
    split; [reflexivity|]. split; [reflexivity|].
    unfold save_write in Hw.
    destruct (save_request b custom_filename w) as [[w2 filename] d] eqn:Er.
    cbn [fst snd] in Hn. subst filename.
    assert (Hd : sd_messages d = chat_history b).
    { unfold save_request in Er.
      destruct (resolve_filename b custom_filename w) as [fn w1].
      destruct (datetime_now w1) as [now w2'].
      injection Er as _ <-. reflexivity. }
    assert (Hf := write_json_success _ _ _ _ Hw).
    assert (Hl : lookup name (files w')
                 = Some (File (fs_clock w2 (ticks w2)) (Saved d))).
    { rewrite Hf. apply lookup_store. }
    split; [now exists (fs_clock w2 (ticks w2)), d|].
    assert (G : given (Some name) = true)
      by apply (resolve_filename_given b custom_filename w).
    assert (Er2 : resolve_filename (set_file b (Some name)) None w' = (name, w'))
      by (apply resolve_filename_associated; [reflexivity | exact G]).
    split; [now rewrite Er2|].
    intros w'' Hw2. unfold save_write, save_request in Hw2.
    rewrite Er2 in Hw2. cbn [datetime_now] in Hw2.
    assert (Hf2 := write_json_success _ _ _ _ Hw2).
    cbn [files tick] in Hf2. rewrite Hf2. split.
    + apply store_existing_keys. rewrite Hl. discriminate.
    + eexists; eexists. split; [apply lookup_store | reflexivity].
Qed.

Lemma C5_save_resolves_name_witness :
  fst (resolve_filename (mkChatBot None Sample.one_exchange "S" (Some "a.json"))
         (Some "backup") (Sample.quiet_world []))
  = "backup.json".
Proof.
  exact (proj1 (C5_save_resolves_name_and_associates
                  (mkChatBot None Sample.one_exchange "S" (Some "a.json"))
                  (Some "backup") (Sample.quiet_world [])
                  ltac:(discriminate))
           "backup" eq_refl ltac:(discriminate)).
Defined.

(* ================================================================== *)
(** ** Listing the saved chats *)

Section Listing.









Lemma lookup_In (name : string) (fs : list (string * node)) (n : node) :
  lookup name fs = Some n -> In (name, n) fs.
Proof.
  induction fs as [|[k v] fs IH]; cbn [lookup]; [discriminate|].
  destruct (k =? name)%string eqn:E.
  - apply String.eqb_eq in E. subst k. intro H. injection H as <-. now left.
  - intro H. right. now apply IH.
Qed.



End Listing.

Section SaveThenList.

Lemma resolve_filename_json (b : ChatBot) (o : option string) (w : World) :
  file_name_ok b = true ->
  endswith (fst (resolve_filename b o w)) ".json" = true.
Proof.
  unfold file_name_ok, resolve_filename. intro Hok.
  assert (G : endswith ("chat_" ++ strftime (wall_clock w (ticks w)) ++ ".json")
                ".json" = true)
    by (rewrite <- append_assoc; apply endswith_append).
  destruct o as [[|c s]|].
  - destruct (current_chat_file b) as [[|c s]|]; try exact G. exact Hok.
  - destruct (endswith (String c s) ".json") eqn:E; [exact E|].
    apply endswith_append.
  - destruct (current_chat_file b) as [[|c s]|]; try exact G. exact Hok.
Qed.

(** The associated name keeps its suffix through a save. *)
Lemma save_chat_keeps_file_name_ok
  (b : ChatBot) (o : option string) (w : World) :
  file_name_ok b = true ->
  file_name_ok (fst (fst (save_chat b o w))) = true.
Proof.
  intro Hok. destruct (chat_history b) as [|t h] eqn:E.
  - unfold save_chat. now rewrite E.
  - rewrite save_chat_write by (rewrite E; discriminate).
    destruct (save_write b o w) as [w3 [e|]]; [exact Hok|].
    cbn [fst]. unfold file_name_ok, set_file. cbn [current_chat_file].
    rewrite save_request_name. now apply resolve_filename_json.
Qed.



End SaveThenList.




(* ================================================================== *)
(** ** The command loop *)

Section CommandLoop.

Lemma clear_chat_stdin (b : ChatBot) (keys : list stdin_event) :
  List.length (snd (fst (fst (clear_chat b keys)))) <= List.length keys.
Proof.
  unfold clear_chat. destruct (chat_history b); [cbn; lia|].
  destruct keys as [|[line|] rest]; cbn [input fst snd List.length];
    try lia.
  destruct (lower (strip line) =? "y")%string; cbn [fst snd]; lia.
Qed.

(** A pass reads at least one terminal event, and raises [EOFError] when
    there is none. *)
Lemma loop_body_consumes (p : Proc) :
  match stdin p with
  | [] => fst (loop_body p) = Throw EOFError
  | _ :: rest => List.length (stdin (snd (loop_body p))) <= List.length rest
  end.
Proof.
  unfold loop_body.
  destruct (stdin p) as [|[line|] rest]; cbn [input]; try reflexivity.
  cbn [bot world stdin stdout].
  destruct (strip line =? "")%string; [cbn [fst snd say stdin]; lia|].
  destruct (startswith (strip line) "/").
  - destruct (split1 (tail (strip line))) as [|c more]; [cbn [fst snd say stdin]; lia|].
    destruct (mem_string (lower c) ["quit"; "exit"; "q"]); [cbn [fst snd say stdin]; lia|].
    destruct (lower c =? "help")%string; [cbn [fst snd say stdin]; lia|].
    destruct (lower c =? "clear")%string.
    { assert (H := clear_chat_stdin (bot p) rest).
      destruct (clear_chat (bot p) rest) as [[[b' rest'] out] [e|]];
        cbn [fst snd stdin] in *; exact H. }
    destruct (lower c =? "save")%string.
    { destruct (save_chat (bot p) _ (world p)) as [[b' w'] out]; cbn [fst snd say stdin]; lia. }
    destruct (lower c =? "list")%string.
    { destruct (list_saved_chats (bot p) (world p)) as [[e|names] out];
        cbn [fst snd say stdin]; lia. }
    destruct (lower c =? "stats")%string; [cbn [fst snd say stdin]; lia|].
    destruct (lower c =? "history")%string; [|cbn [fst snd say stdin]; lia].
    match goal with
    | |- context [match ?x with Some _ => _ | None => _ end] => destruct x
    end; cbn [fst snd say stdin]; lia.
  - destruct (chat (bot p) (strip line)) as [[b' r] out]; cbn [fst snd say stdin]; lia.
Qed.

Lemma iteration_consumes (p p' : Proc) :
  iteration p = (Next, p') ->
  List.length (stdin p') < List.length (stdin p).
Proof.
  unfold iteration. assert (H := loop_body_consumes p).
  destruct (loop_body p) as [c q]. cbn [fst snd] in H.
  destruct (stdin p) as [|ev rest].
  - subst c. discriminate.
  - destruct c as [| |[]]; intro E; try discriminate E;
      injection E as <-; cbn [say stdin List.length]; lia.
Qed.

(** The loop is left within one pass more than there are terminal
    events. *)
Lemma run_loop_returns (fuel : nat) :
  forall p, List.length (stdin p) < fuel -> run_loop fuel p <> None.
Proof.
  induction fuel as [|fuel IH]; intros p Hlt; [lia|].
  cbn [run_loop]. destruct (iteration p) as [[| |e] p'] eqn:E;
    try discriminate.
  apply IH. apply iteration_consumes in E. lia.
Qed.

(** The inner handler catches every [KeyboardInterrupt]. *)
Lemma iteration_never_interrupted (p p' : Proc) :
  iteration p <> (Throw KeyboardInterrupt, p').
Proof.
  unfold iteration. destruct (loop_body p) as [[| |[]] q]; discriminate.
Qed.

End CommandLoop.

(** [main] always ends, with an exit status. *)
Lemma main_returns (SYSTEM_PROMPT : string) (s : Startup) (w : World)
  (keys : list stdin_event) :
  exists status p, main SYSTEM_PROMPT s w keys = Some (status, p).
Proof.
  unfold main. destruct (model_exists s); cbn [negb]; [|eauto].
  destruct (load_model _ s) as [[b out] [e|[|]]]; eauto.
  destruct (run_loop _ _) as [[c p2]|] eqn:E.
  - destruct (cleanup _) as [[e|] p4]; [eauto|].
    destruct c as [| |e]; eauto. destruct (is_Exception e); eauto.
  - exfalso. revert E. apply run_loop_returns. cbn [stdin]. lia.
Qed.

(** The process exits with status 1 when the model file is missing. *)
Lemma main_model_missing (SYSTEM_PROMPT : string) (s : Startup) (w : World)
  (keys : list stdin_event) :
  model_exists s = false ->
  SampleRuns.status (main SYSTEM_PROMPT s w keys) = Some (Exit 1).
Proof. intro H. unfold main. now rewrite H. Qed.

(** The process exits with status 1 when the engine cannot be set up. *)
Lemma main_engine_fails (SYSTEM_PROMPT : string) (s : Startup) (w : World)
  (keys : list stdin_event) (e : exn) :
  model_exists s = true -> engine_init s = inl e -> is_Exception e = true ->
  SampleRuns.status (main SYSTEM_PROMPT s w keys) = Some (Exit 1).
Proof.
  intros H1 H2 H3. unfold main, load_model. now rewrite H1, H2, H3.
Qed.

(** A quit command as the first line ends the process with status 0. *)
Lemma main_quit_at_once (SYSTEM_PROMPT : string) (s : Startup) (w : World)
  (m : Llama) (line : string) (rest : list stdin_event) :
  model_exists s = true -> engine_init s = inr m ->
  strip line = "/quit" \/ strip line = "/exit" \/ strip line = "/q" ->
  SampleRuns.status (main SYSTEM_PROMPT s w (Line line :: rest))
  = Some (Exit 0).
Proof.
  intros H1 H2 Hq. unfold main, load_model. rewrite H1, H2.
  cbn [negb new_ChatBot bot set_llm run_loop List.length].
  unfold iteration, loop_body. cbn [stdin input].
  destruct Hq as [ -> | [ -> | -> ] ]; reflexivity.
Qed.

(** Once the engine is loaded the process never exits with a status
    other than 0: it returns from [main] or dies of an exception. *)
Lemma main_started_status (SYSTEM_PROMPT : string) (s : Startup) (w : World)
  (m : Llama) (keys : list stdin_event) (code : nat) :
  model_exists s = true -> engine_init s = inr m ->
  SampleRuns.status (main SYSTEM_PROMPT s w keys) = Some (Exit code) ->
  code = 0.
Proof.
  intros H1 H2. unfold main, load_model. rewrite H1, H2. cbn [negb].
  destruct (run_loop _ _) as [[c p2]|]; [|discriminate].
  destruct (cleanup _) as [[e|] p4]; [discriminate|].
  destruct c as [| |e]; try (intro H; now injection H).
  destruct (is_Exception e); [intro H; now injection H | discriminate].
Qed.

(** C9 (the code departs from it): with the engine loaded, a listing that
    meets a record entry it cannot examine raises out of
    [ChatBot.list_saved_chats]; the outer handler of [main] reports it and
    the process ends, with status 0, leaving the next line unread.  The
    line that consists of a slash does the same through [IndexError]. *)
Theorem C9_list_error_ends_the_process :
  let run := main "S" SampleRuns.ready SampleFiles.dangling_world
               [Line "/list"; Line "Hi"] in
  let run' := main "S" SampleRuns.ready (Sample.quiet_world [])
                [Line "/"; Line "Hi"] in
  SampleRuns.status run = Some (Exit 0)
  /\ SampleRuns.unread run = Some [Line "Hi"]
  /\ SampleRuns.shown run
     = Some [NModelLoaded; NUnexpectedError (OSError "No such file or directory")]
  /\ SampleRuns.status run' = Some (Exit 0)
  /\ SampleRuns.unread run' = Some [Line "Hi"]
  /\ SampleRuns.shown run' = Some [NModelLoaded; NUnexpectedError IndexError].
Proof. repeat split; vm_compute; reflexivity. Qed.

(* ================================================================== *)
(** ** The associated file name in reachable states *)

Section ReachableFileName.

Lemma chat_keeps_file (b : ChatBot) (user_input : string) :
  current_chat_file (fst (fst (chat b user_input))) = current_chat_file b.
Proof.
  destruct (llm b) as [m|] eqn:L.
  - destruct (generation_failed (generation b m user_input)) eqn:G.
    + now destruct (chat_failure b m user_input L G) as [out ->].
    + now rewrite (chat_success b m user_input L G).
  - unfold chat. now rewrite L.
Qed.

Lemma clear_chat_keeps_file_name_ok (b : ChatBot) (keys : list stdin_event) :
  file_name_ok b = true ->
  file_name_ok (fst (fst (fst (clear_chat b keys)))) = true.
Proof.
  intro Hok. unfold clear_chat. destruct (chat_history b); [exact Hok|].
  destruct (input keys) as [[e|line] rest]; [exact Hok|].
  destruct (lower (strip line) =? "y")%string; [reflexivity | exact Hok].
Qed.

(** Every pass of the command loop keeps the suffix of the associated
    name, which a new bot does not have yet. *)
Lemma loop_body_keeps_file_name_ok (p : Proc) :
  file_name_ok (bot p) = true ->
  file_name_ok (bot (snd (loop_body p))) = true.
Proof.
  intro Hok. unfold loop_body.
  destruct (input (stdin p)) as [[e|line] rest]; [exact Hok|].
  cbn [bot world stdin stdout].
  destruct (strip line =? "")%string; [exact Hok|].
  destruct (startswith (strip line) "/").
  - destruct (split1 (tail (strip line))) as [|c more]; [exact Hok|].
    destruct (mem_string (lower c) ["quit"; "exit"; "q"]); [exact Hok|].
    destruct (lower c =? "help")%string; [exact Hok|].
    destruct (lower c =? "clear")%string.
    { assert (H := clear_chat_keeps_file_name_ok (bot p) rest Hok).
      destruct (clear_chat (bot p) rest) as [[[b' rest'] out] [e|]];
        exact H. }
    destruct (lower c =? "save")%string.
    { match goal with
      | |- context [save_chat (bot p) ?a (world p)] =>
          assert (H := save_chat_keeps_file_name_ok (bot p) a (world p) Hok);
          destruct (save_chat (bot p) a (world p)) as [[b' w'] out]
      end. exact H. }
    destruct (lower c =? "list")%string.
    { destruct (list_saved_chats (bot p) (world p)) as [[e|names] out];
        exact Hok. }
    destruct (lower c =? "stats")%string; [exact Hok|].
    destruct (lower c =? "history")%string; [|exact Hok].
    match goal with
    | |- context [match ?x with Some _ => _ | None => _ end] => destruct x
    end; exact Hok.
  - assert (H := chat_keeps_file (bot p) (strip line)).
    destruct (chat (bot p) (strip line)) as [[b' r] out].
    cbn [fst snd bot] in *. unfold file_name_ok in *. now rewrite H.
Qed.

Lemma new_ChatBot_file_name_ok (SYSTEM_PROMPT : string) :
  file_name_ok (new_ChatBot SYSTEM_PROMPT) = true.
Proof. reflexivity. Qed.

End ReachableFileName.

(* ================================================================== *)
(** ** The turn store in reachable states *)

Section ReachableHistory.

Lemma chat_keeps_exchanges (b : ChatBot) (user_input : string) :
  exchanges_only (chat_history b) ->
  exchanges_only (chat_history (fst (fst (chat b user_input)))).
Proof.
  intros [n Hn].
  destruct (chat_history_cases b user_input) as [[_ ->]|[resp [_ ->]]].
  - now exists n.
  - exists (S n). rewrite map_app, Hn. apply alternating_snoc.
Qed.

Lemma clear_chat_keeps_exchanges (b : ChatBot) (keys : list stdin_event) :
  exchanges_only (chat_history b) ->
  exchanges_only (chat_history (fst (fst (fst (clear_chat b keys))))).
Proof.
  intro H. unfold clear_chat. destruct (chat_history b) eqn:E.
  - cbn [fst]. now rewrite E.
  - destruct (input keys) as [[e|line] rest]; cbn [fst]; [now rewrite E|].
    destruct (lower (strip line) =? "y")%string; cbn [fst].
    + now exists 0.
    + now rewrite E.
Qed.

Lemma save_chat_keeps_history (b : ChatBot) (o : option string) (w : World) :
  chat_history (fst (fst (save_chat b o w))) = chat_history b.
Proof.
  destruct (chat_history b) as [|t h] eqn:E.
  - unfold save_chat. now rewrite E.
  - rewrite save_chat_write by (rewrite E; discriminate).
    destruct (save_write b o w) as [w3 [e|]]; cbn [fst]; [exact E|].
    cbn [set_file chat_history]. exact E.
Qed.

Lemma loop_body_keeps_exchanges (p : Proc) :
  exchanges_only (chat_history (bot p)) ->
  exchanges_only (chat_history (bot (snd (loop_body p)))).
Proof.
  intro Hok. unfold loop_body.
  destruct (input (stdin p)) as [[e|line] rest]; [exact Hok|].
  cbn [bot world stdin stdout].
  destruct (strip line =? "")%string; [exact Hok|].
  destruct (startswith (strip line) "/").
  - destruct (split1 (tail (strip line))) as [|c more]; [exact Hok|].
    destruct (mem_string (lower c) ["quit"; "exit"; "q"]); [exact Hok|].
    destruct (lower c =? "help")%string; [exact Hok|].
    destruct (lower c =? "clear")%string.
    { assert (H := clear_chat_keeps_exchanges (bot p) rest Hok).
      destruct (clear_chat (bot p) rest) as [[[b' rest'] out] [e|]];
        exact H. }
    destruct (lower c =? "save")%string.
    { match goal with
      | |- context [save_chat (bot p) ?a (world p)] =>
          assert (H := save_chat_keeps_history (bot p) a (world p));
          destruct (save_chat (bot p) a (world p)) as [[b' w'] out]
      end. cbn [fst snd bot] in *. now rewrite H. }
    destruct (lower c =? "list")%string.
    { destruct (list_saved_chats (bot p) (world p)) as [[e|names] out];
        exact Hok. }
    destruct (lower c =? "stats")%string; [exact Hok|].
    destruct (lower c =? "history")%string; [|exact Hok].
    match goal with
    | |- context [match ?x with Some _ => _ | None => _ end] => destruct x
    end; exact Hok.
  - assert (H := chat_keeps_exchanges (bot p) (strip line) Hok).
    destruct (chat (bot p) (strip line)) as [[b' r] out]. exact H.
Qed.

Lemma iteration_keeps_exchanges (p : Proc) :
  exchanges_only (chat_history (bot p)) ->
  exchanges_only (chat_history (bot (snd (iteration p)))).
Proof.
  intro Hok. apply loop_body_keeps_exchanges in Hok. unfold iteration.
  destruct (loop_body p) as [[| |[]] q]; exact Hok.
Qed.

(** However the command loop is left, the turn store holds whole
    exchanges only. *)
Lemma run_loop_keeps_exchanges (fuel : nat) :
  forall (p p' : Proc) (c : control),
    exchanges_only (chat_history (bot p)) ->
    run_loop fuel p = Some (c, p') ->
    exchanges_only (chat_history (bot p')).
Proof.
  induction fuel as [|fuel IH]; intros p p' c Hok; [discriminate|].
  cbn [run_loop]. apply iteration_keeps_exchanges in Hok.
  destruct (iteration p) as [[| |e] q]; cbn [snd] in Hok.
  - now apply IH.
  - intro E. injection E as _ <-. exact Hok.
  - intro E. injection E as _ <-. exact Hok.
Qed.

(** A store of whole exchanges does not end with a user turn. *)
Lemma exchanges_only_last (h : list Message) :
  exchanges_only h -> last_role h <> Some "user".
Proof.
  intros [n Hn]. rewrite last_role_map, Hn. apply last_role_alternating.
Qed.

End ReachableHistory.

(* ================================================================== *)
(** ** Further properties of the stream consumer *)

Section ConsumerFacts.

Lemma printed_text_app (a b : list notice) :
  printed_text (a ++ b)%list = printed_text a ++ printed_text b.
Proof.
  induction a as [|n a IH]; [reflexivity|].
  destruct n; cbn [app printed_text]; try exact IH.
  now rewrite IH, append_assoc.
Qed.

Lemma printed_text_token (out : list notice) (t : string) :
  printed_text (out ++ [NToken t])%list = printed_text out ++ t.
Proof. rewrite printed_text_app. cbn [printed_text]. now rewrite append_nil_r. Qed.

End ConsumerFacts.

(** The loop keeps the screen and the accumulated text in step. *)
Lemma consume_keeps_screen_text
  (evs : list stream_event) (acc : string) (out : list notice) :
  printed_text out = acc ->
  printed_text (printed (consume evs acc out))
  = response_text (consume evs acc out).
Proof.
  revert acc out. induction evs as [|[o|e] evs IH]; intros acc out H;
    cbn [consume printed response_text]; try exact H.
  destruct (choices o) as [[|ch chs]|]; try (now apply IH).
  destruct (is_stop (finish_reason ch)); [exact H|].
  destruct (contains "<|eot_id|>" _).
  - destruct (replace "<|eot_id|>" "" _) as [|c s] eqn:R;
      cbn [printed response_text]; [exact H|].
    rewrite printed_text_token. now rewrite H.
  - apply IH. rewrite printed_text_token. now rewrite H.
Qed.

(** X1: whatever the engine streams, the text shown on the screen as
    tokens is the text accumulated as the response: the loop of chat never
    prints a fragment that it does not accumulate, nor the reverse, also
    when the stream raises or is cut at a marker. *)
Theorem X1_screen_shows_what_is_accumulated
  (evs : list stream_event) (acc : string) (out : list notice) :
  printed_text out = acc ->
  printed_text (printed (consume evs acc out))
  = response_text (consume evs acc out)
  /\ exists shown, printed (consume evs acc out) = (out ++ shown)%list.
Proof.
  intro H. split; [now apply consume_keeps_screen_text|]. clear H.
  revert acc out. induction evs as [|[o|e] evs IH]; intros acc out;
    cbn [consume printed]; try (exists []; now rewrite app_nil_r).
  destruct (choices o) as [[|ch chs]|]; try apply IH.
  destruct (is_stop (finish_reason ch)); [exists []; now rewrite app_nil_r|].
  destruct (contains "<|eot_id|>" _).
  - destruct (replace "<|eot_id|>" "" _) as [|c s]; cbn [printed];
      [exists []; now rewrite app_nil_r | eexists; reflexivity].
  - destruct (IH (acc ++ match text ch with Some t => t | None => "" end)
                 (out ++ [NToken match text ch with Some t => t | None => "" end])%list)
      as [shown E].
    rewrite E, <- app_assoc. eexists; reflexivity.
Qed.

Lemma X1_screen_witness :
  printed_text (printed (consume [fragment "Hel"; Raise KeyboardInterrupt] "" []))
  = "Hel".
Proof.
  exact (proj1 (X1_screen_shows_what_is_accumulated
                  [fragment "Hel"; Raise KeyboardInterrupt] "" [] eq_refl)).
Defined.

(** X2: a stream that ends without raising, and in which no output has a
    stop reason or a marker, accumulates the texts of the first choices in
    order; the outputs without choices count for nothing. *)
Theorem X2_plain_stream_is_concatenated
  (evs : list stream_event) (acc : string) (out : list notice) :
  forallb passes evs = true ->
  response_text (consume evs acc out) = acc ++ concat_texts evs
  /\ raised (consume evs acc out) = None.
Proof.
  revert acc out. induction evs as [|[o|e] evs IH]; intros acc out H.
  - cbn. now rewrite append_nil_r.
  - cbn [forallb passes] in H. apply andb_true_iff in H as [Hp H].
    cbn [consume concat_texts event_text]. unfold token_of in *.
    destruct (choices o) as [[|ch chs]|]; try (now apply IH).
    apply andb_true_iff in Hp as [Hs Hm].
    apply negb_true_iff in Hs, Hm. rewrite Hs, Hm.
    destruct (IH (acc ++ match text ch with Some t => t | None => "" end)
                 (out ++ [NToken match text ch with Some t => t | None => "" end])%list
                 H) as [E1 E2].
    rewrite E1, E2, append_assoc. now split.
  - discriminate H.
Qed.

Lemma X2_plain_stream_witness :
  response_text
    (consume [fragment "Hel"; Yield (mkOutput None); fragment "lo"] "" [])
  = "Hello".
Proof.
  exact (proj1 (X2_plain_stream_is_concatenated
                  [fragment "Hel"; Yield (mkOutput None); fragment "lo"]
                  "" [] eq_refl)).
Defined.

(* ================================================================== *)
(** ** Further properties of the prompt formatter *)

Section FormatterFacts.

Lemma fold_format_messages (h : list Message) :
  fold_left (fun formatted msg => formatted ++ format_message msg) h ""
  = format_messages h.
Proof.
  induction h as [|m h IH]; [reflexivity|].
  cbn [fold_left format_messages append].
  rewrite fold_format_append. now rewrite IH.
Qed.

Lemma format_messages_app (h1 h2 : list Message) :
  format_messages (h1 ++ h2)%list = format_messages h1 ++ format_messages h2.
Proof.
  induction h1 as [|m h1 IH]; [reflexivity|].
  cbn [app format_messages]. now rewrite IH, append_assoc.
Qed.

Lemma format_chat_history_closed (b : ChatBot) :
  format_chat_history b
  = "<|begin_of_text|>" ++ header "system" ++ system_prompt b ++ "<|eot_id|>"
    ++ format_messages (chat_history b).
Proof.
  unfold format_chat_history. rewrite fold_format_append, fold_format_messages.
  unfold header.
  change ("<|begin_of_text|><|start_header_id|>system<|end_header_id|>" ++ nl ++ nl
          ++ system_prompt b ++ "<|eot_id|>")
    with ("<|begin_of_text|>" ++ ("<|start_header_id|>" ++ "system"
          ++ "<|end_header_id|>" ++ nl ++ nl) ++ system_prompt b ++ "<|eot_id|>").
  now rewrite !append_assoc.
Qed.

Lemma format_message_header (msg : Message) :
  format_message msg = header (role msg) ++ content msg ++ "<|eot_id|>".
Proof. unfold format_message, header. now rewrite !append_assoc. Qed.

End FormatterFacts.

(** X3: the prompt sent to the engine is the begin marker, the system
    block, the block of every turn in the order of the store (role header,
    content, end-of-turn marker), and the open assistant header; nothing
    else, and no turn is left out or reordered. *)
Theorem X3_prompt_is_the_blocks_in_order (b : ChatBot) :
  chat_prompt b
  = "<|begin_of_text|>"
    ++ header "system" ++ system_prompt b ++ "<|eot_id|>"
    ++ format_messages (chat_history b)
    ++ header "assistant"
  /\ (forall h1 h2,
        format_messages (h1 ++ h2)%list
        = format_messages h1 ++ format_messages h2)
  /\ (forall msg,
        format_message msg = header (role msg) ++ content msg ++ "<|eot_id|>").
Proof.
  split; [|split; [exact format_messages_app | exact format_message_header]].
  unfold chat_prompt. rewrite format_chat_history_closed.
  unfold header. now rewrite !append_assoc.
Qed.

(** X4: contents are embedded as they are, without escaping: a turn whose
    content carries an end-of-turn marker and a role header gives the
    prompt of two turns, so the engine cannot tell the one store from the
    other. *)
Theorem X4_content_is_not_escaped
  (b : ChatBot) (h : list Message) (r r' c c' : string) :
  chat_prompt
    (set_history b (h ++ [mkMessage r (c ++ "<|eot_id|>" ++ header r' ++ c')])%list)
  = chat_prompt
      (set_history b (h ++ [mkMessage r c; mkMessage r' c'])%list).
Proof.
  unfold chat_prompt. rewrite !format_chat_history_closed.
  cbn [set_history chat_history system_prompt].
  rewrite !format_messages_app. cbn [format_messages].
  rewrite !format_message_header. cbn [role content].
  now rewrite !append_assoc.
Qed.

(* ================================================================== *)
(** ** Trimming *)

Section Trimming.

Lemma last_char_default (s : string) (d d' : ascii) :
  s <> "" -> last_char s d = last_char s d'.
Proof. destruct s; [now intros [] | reflexivity]. Qed.

Lemma lstrip_first (s : string) :
  match lstrip s with
  | "" => True
  | String c _ => is_space c = false
  end.
Proof.
  induction s as [|c s IH]; cbn [lstrip]; [exact I|].
  destruct (is_space c) eqn:E; [exact IH | exact E].
Qed.

Lemma lstrip_last (s : string) (d : ascii) :
  lstrip s <> "" -> last_char (lstrip s) d = last_char s d.
Proof.
  revert d. induction s as [|c s IH]; intros d; cbn [lstrip]; [reflexivity|].
  destruct (is_space c); [|reflexivity].
  intro H. rewrite (IH d H). cbn [last_char].
  apply last_char_default. intros ->. now apply H.
Qed.

Lemma rstrip_last (s : string) (d : ascii) :
  rstrip s = "" \/ is_space (last_char (rstrip s) d) = false.
Proof.
  revert d. induction s as [|c s IH]; intro d; cbn [rstrip]; [now left|].
  destruct (is_space c && (rstrip s =? "")%string) eqn:E; [now left|].
  right. cbn [last_char]. destruct (IH c) as [H|H]; [|exact H].
  rewrite H in *. cbn [last_char]. rewrite String.eqb_refl, andb_true_r in E.
  exact E.
Qed.

(** What [strip] returns has no whitespace at either end. *)
Lemma strip_trimmed (s : string) : trimmed (strip s) = true.
Proof.
  unfold strip, trimmed. assert (F := lstrip_first (rstrip s)).
  destruct (lstrip (rstrip s)) as [|c t] eqn:E; [reflexivity|].
  rewrite F. cbn [negb andb]. rewrite <- E.
  rewrite lstrip_last by (rewrite E; discriminate).
  destruct (rstrip_last s c) as [H|H]; [|now rewrite H].
  rewrite H in E. discriminate E.
Qed.

Lemma lstrip_fixed (s : string) :
  match s with "" => True | String c _ => is_space c = false end ->
  lstrip s = s.
Proof. destruct s as [|c s]; [reflexivity|]. cbn [lstrip]. now intros ->. Qed.

Lemma rstrip_fixed (s : string) :
  (forall d, s = "" \/ is_space (last_char s d) = false) -> rstrip s = s.
Proof.
  induction s as [|c s IH]; intro H; [reflexivity|]. cbn [rstrip].
  destruct s as [|c' s'].
  - cbn [rstrip]. destruct (H c) as [H'|H']; [discriminate|].
    cbn [last_char] in H'. now rewrite H'.
  - rewrite IH.
    + now rewrite andb_false_r.
    + intro d. right. destruct (H d) as [H'|H']; [discriminate|exact H'].
Qed.

(** Trimming twice is trimming once. *)
Lemma strip_fixed (s : string) : trimmed s = true -> strip s = s.
Proof.
  unfold trimmed, strip. destruct s as [|c t]; [reflexivity|]. intro H.
  apply andb_true_iff in H as [H1 H2]. apply negb_true_iff in H1, H2.
  rewrite rstrip_fixed.
  - cbn [lstrip]. now rewrite H1.
  - intro d. right. cbn [last_char] in *. exact H2.
Qed.

End Trimming.

(** X5: when a chat call returns a response, the store has grown by
    exactly the user turn, with the input as it was given, and the
    assistant turn, whose content is the returned response.  The response
    is what was shown on the screen, trimmed: it has at least two
    characters and no whitespace at either end.  The system prompt and
    the associated file name are not touched. *)
Theorem X5_successful_chat_stores_the_trimmed_reply
  (b b' : ChatBot) (user_input response : string) (out : list notice) :
  chat b user_input = (b', Some response, out) ->
  chat_history b'
  = (chat_history b
     ++ [mkMessage "user" user_input; mkMessage "assistant" response])%list
  /\ response = strip (printed_text out)
  /\ trimmed response = true
  /\ 2 <= length response
  /\ system_prompt b' = system_prompt b
  /\ current_chat_file b' = current_chat_file b.
Proof.
  intro H. destruct (llm b) as [m|] eqn:L.
  - destruct (generation_failed (generation b m user_input)) eqn:G.
    + destruct (chat_failure b m user_input L G) as [out' E].
      rewrite E in H. discriminate H.
    + rewrite (chat_success b m user_input L G) in H.
      injection H as <- <- <-. cbn [chat_history system_prompt current_chat_file].
      split; [reflexivity|]. split; [|split; [apply strip_trimmed|split]].
      * unfold generation. now rewrite consume_keeps_screen_text.
      * unfold generation_failed in G.
        destruct (raised (generation b m user_input)); [discriminate|].
        apply orb_false_iff in G as [_ G]. apply Nat.ltb_ge in G. exact G.
      * split; reflexivity.
  - unfold chat in H. rewrite L in H. discriminate H.
Qed.

Lemma X5_successful_chat_witness :
  chat_history (fst (fst (chat (Sample.helpful Sample.hello_engine) "Hi")))
  = [mkMessage "user" "Hi"; mkMessage "assistant" "Hello!"].
Proof.
  exact (proj1 (X5_successful_chat_stores_the_trimmed_reply
                  (Sample.helpful Sample.hello_engine)
                  (fst (fst (chat (Sample.helpful Sample.hello_engine) "Hi")))
                  "Hi" "Hello!"
                  (snd (chat (Sample.helpful Sample.hello_engine) "Hi"))
                  eq_refl)).
Defined.

(* ================================================================== *)
(** ** History display and statistics *)

Section DisplayFacts.

Lemma substring_length (n : nat) (s : string) :
  length (substring 0 n s) = Nat.min n (length s).
Proof.
  revert n; induction s as [|c s IH]; intros [|n]; cbn [substring length Nat.min];
    try reflexivity.
  now rewrite IH.
Qed.

Lemma count_role_alternating (n : nat) :
  forall h, map role h = alternating n ->
            count_role "user" h = n /\ count_role "assistant" h = n.
Proof.
  unfold count_role.
  induction n as [|n IH]; intros h H.
  - destruct h; [now split | discriminate H].
  - destruct h as [|m1 [|m2 h]]; try discriminate H.
    cbn [map alternating] in H. injection H as H1 H2 H.
    destruct (IH h H) as [Eu Ea].
    cbn [filter]. rewrite H1, H2.
    change ("user" =? "user")%string with true.
    change ("assistant" =? "user")%string with false.
    change ("user" =? "assistant")%string with false.
    change ("assistant" =? "assistant")%string with true.
    cbn [List.length]. now rewrite Eu, Ea.
Qed.

End DisplayFacts.

(** X6: on a non-empty store, history with a positive count n shows the
    last n turns, or all of them when there are fewer, with their full
    content; with the count 0 it shows every turn and cuts a content of
    more than 200 characters to its first 200 followed by three dots; with
    a negative count it shows every turn with its full content. *)
Theorem X6_history_selects_and_truncates (b : ChatBot) (last_n : Z) :
  chat_history b <> [] ->
  let h := chat_history b in
  let selected :=
    if (0 <? last_n)%Z then skipn (List.length h - Z.to_nat last_n) h else h in
  exists rows,
    display_history b last_n = [NHistory rows]
    /\ map fst rows = map role selected
    /\ List.length rows
       = (if (0 <? last_n)%Z
          then Nat.min (Z.to_nat last_n) (List.length h)
          else List.length h)
    /\ (last_n <> 0%Z -> map snd rows = map content selected)
    /\ (last_n = 0%Z ->
        Forall2 (fun row msg =>
                   length (snd row) <= 203
                   /\ (length (content msg) <= 200 -> snd row = content msg)
                   /\ (200 < length (content msg) ->
                       snd row = substring 0 200 (content msg) ++ "..."
                       /\ length (snd row) = 203))
          rows h).
Proof.
  intros Hne h selected. subst selected h. unfold display_history.
  destruct (chat_history b) as [|m0 h0]; [now elim Hne|].
  set (h := m0 :: h0).
  set (selected := if (0 <? last_n)%Z
                   then skipn (List.length h - Z.to_nat last_n) h else h).
  eexists. split; [reflexivity|].
  split; [rewrite map_map; reflexivity|]. split.
  - rewrite length_map. unfold selected.
    destruct (0 <? last_n)%Z; [|reflexivity].
    rewrite length_skipn. lia.
  - split.
    + intro Hn. rewrite map_map. apply map_ext. intro msg. cbn [snd].
      apply Z.eqb_neq in Hn. rewrite Hn. now rewrite andb_false_r.
    + intros ->. unfold selected. cbn [Z.ltb Z.compare].
      clear. induction h as [|msg h IH]; [constructor|].
      cbn [map]. constructor; [|exact IH]. cbn [snd].
      rewrite Z.eqb_refl, andb_true_r.
      destruct (200 <? length (content msg)) eqn:E.
      * apply Nat.ltb_lt in E.
        assert (L : length (substring 0 200 (content msg) ++ "...") = 203).
        { rewrite length_append, substring_length. cbn [length]. lia. }
        split; [rewrite L; lia|]. split; [lia|]. now intros _.
      * apply Nat.ltb_ge in E. split; [lia|]. split; [reflexivity | lia].
Qed.

Lemma X6_history_witness :
  exists rows,
    display_history (mkChatBot None Sample.one_exchange "S" None) 1
    = [NHistory rows]
    /\ map fst rows = ["assistant"].
Proof.
  destruct (X6_history_selects_and_truncates
              (mkChatBot None Sample.one_exchange "S" None) 1
              ltac:(discriminate)) as [rows [E [R _]]].
  exists rows. split; [exact E | exact R].
Defined.

(** X7: when the store holds n whole exchanges, as it does in every state
    that the command loop reaches, the statistics count 2n messages, n of
    the user and n of the assistant; the token estimate is a quarter of
    the characters of the contents, rounded down, and the estimate with
    the system prompt adds a quarter of its length. *)
Theorem X7_stats_count_the_exchanges (b : ChatBot) (n : nat) :
  map role (chat_history b) = alternating n ->
  show_stats b
  = [NStats (2 * n) n n
       (total_chars (chat_history b) / 4) (total_estimated b)].
Proof.
  intro H. unfold show_stats, total_estimated, total_chars.
  destruct (count_role_alternating n _ H) as [-> ->].
  rewrite <- (length_map role), H, alternating_length. reflexivity.
Qed.

Lemma X7_stats_witness :
  show_stats (mkChatBot None Sample.one_exchange "You are helpful." None)
  = [NStats 2 1 1 2 6].
Proof.
  exact (X7_stats_count_the_exchanges
           (mkChatBot None Sample.one_exchange "You are helpful." None) 1
           eq_refl).
Defined.

(** X8: the usage printed by the statistics never exceeds 100, is printed
    only for a positive estimate, and the warning about the context limit
    appears exactly when the estimate with the system prompt reaches
    21136 tokens, that is 86 percent of the 24576 of the context. *)
Theorem X8_context_warning_threshold (b : ChatBot) :
  (forall pct, usage_pct b = Some pct -> (0 <= pct <= 100)%Z)
  /\ (usage_pct b = None <-> total_estimated b = 0)
  /\ (context_warning b = true
      <-> (21136 <= Z.of_nat (total_estimated b))%Z).
Proof.
  unfold context_warning, usage_pct, N_CTX.
  destruct (0 <? total_estimated b) eqn:E.
  - apply Nat.ltb_lt in E. split; [|split].
    + intros pct H. injection H as <-.
      assert (0 <= Z.of_nat (total_estimated b) * 100 / 24576)%Z
        by (apply Z.div_pos; lia).
      lia.
    + split; [discriminate | lia].
    + rewrite Z.ltb_lt. split; intro H.
      * apply Z.min_glb_lt_iff in H as [_ H].
        destruct (Z.lt_ge_cases (Z.of_nat (total_estimated b)) 21136) as [L|L];
          [|exact L].
        exfalso.
        assert (Z.of_nat (total_estimated b) * 100 / 24576 < 86)%Z
          by (apply Z.div_lt_upper_bound; lia).
        lia.
      * apply Z.min_glb_lt; [lia|].
        assert (86 <= Z.of_nat (total_estimated b) * 100 / 24576)%Z
          by (apply Z.div_le_lower_bound; lia).
        lia.
  - apply Nat.ltb_ge in E. split; [discriminate|]. split.
    + split; [lia | reflexivity].
    + split; [discriminate | lia].
Qed.

(* ================================================================== *)
(** ** Further properties of the listing *)

Section ListingFacts.








End ListingFacts.





(* ================================================================== *)
(** ** Further properties of saving *)

Section SavingFacts.


Lemma save_request_files (b : ChatBot) (o : option string) (w : World) :
  files (fst (fst (save_request b o w))) = files w
  /\ sd_messages (snd (save_request b o w)) = chat_history b
  /\ sd_system_prompt (snd (save_request b o w)) = system_prompt b.
Proof.
  unfold save_request, resolve_filename.
  destruct o as [[|c s]|]; try (destruct (current_chat_file b) as [[|c' s']|]);
    cbn [datetime_now fst snd files tick]; repeat split; reflexivity.
Qed.

(** What a write leaves in the directory. *)
Lemma write_json_files (w : World) (name : string) (d : save_data) :
  let r := write_json w name d in
  (snd r = None ->
     files (fst r) = store name (File (fs_clock w (ticks w)) (Saved d)) (files w))
  /\ (snd r <> None ->
      files (fst r) = files w
      \/ files (fst r) = store name (File (fs_clock w (ticks w)) Other) (files w)).
Proof.
  unfold write_json. destruct (contains NUL name).
  - cbn. split; [discriminate | now left].
  - destruct (write_faults w (ticks w)) as [[msg|msg]|]; cbn.
    + split; [discriminate | now left].
    + split; [discriminate | now right].
    + split; [reflexivity | intro H; now elim H].
Qed.


(** A save that reports success has stored the record of the
    conversation under the resolved name. *)
Lemma save_chat_saved_record (b b' : ChatBot) (o : option string)
  (w w' : World) (name : string) :
  chat_history b <> [] ->
  save_chat b o w = (b', w', [NChatSaved name]) ->
  name = fst (resolve_filename b o w)
  /\ exists t d, files w' = store name (File t (Saved d)) (files w)
                 /\ sd_messages d = chat_history b
                 /\ sd_system_prompt d = system_prompt b.
Proof.
  intros Hne H. rewrite (save_chat_write b o w Hne) in H.
  rewrite save_request_name in H. unfold save_write in H.
  assert (Hn := save_request_name b o w).
  destruct (save_request_files b o w) as [Hf [Hm Hp]].
  destruct (save_request b o w) as [[w2 fn] d]. cbn [fst snd] in *.
  destruct (write_json_files w2 fn d) as [Hs _].
  destruct (write_json w2 fn d) as [w3 [e|]]; [discriminate H|].
  cbv zeta in H. injection H as <- <- <-. split; [reflexivity|].
  exists (fs_clock w2 (ticks w2)), d. cbn [fst snd] in Hs.
  rewrite (Hs eq_refl), Hf, Hn. now repeat split.
Qed.

End SavingFacts.



(** X12: the file is opened for writing, hence emptied, before the record
    is serialised: when the write fails after the file was opened, the
    save reports the error and keeps the bot, but the entry of that name
    no longer holds a record, also when it held one before. *)
Theorem X12_failed_dump_loses_the_old_record
  (b : ChatBot) (custom_filename : option string) (w : World) (msg : string) :
  chat_history b <> [] ->
  let '(w2, name, d) := save_request b custom_filename w in
  contains NUL name = false ->
  write_faults w2 (ticks w2) = Some (DumpFails msg) ->
  exists w' t,
    save_chat b custom_filename w = (b, w', [NErrorSaving (OSError msg)])
    /\ lookup name (files w') = Some (File t Other).
Proof.
  intro Hne. assert (E := save_chat_write b custom_filename w Hne).
  unfold save_write in E.
  destruct (save_request b custom_filename w) as [[w2 name] d].
  intros Hnul Hf. unfold write_json in E. rewrite Hnul, Hf in E.
  eexists; eexists. split; [exact E|].
  cbn [files set_files]. apply lookup_store.
Qed.

Lemma X12_failed_dump_witness :
  exists w' t,
    save_chat (SampleFiles.saved_before "a.json") None
      (mkWorld [("a.json", File 7 (Saved (mkSaveData Sample.noon "S" [])))] 0
         (fun _ => Sample.noon) (fun _ => 9%Q)
         (fun _ => Some (DumpFails "No space left on device")))
    = (SampleFiles.saved_before "a.json", w',
       [NErrorSaving (OSError "No space left on device")])
    /\ lookup "a.json" (files w') = Some (File t Other).
Proof.
  exact (X12_failed_dump_loses_the_old_record
           (SampleFiles.saved_before "a.json") None
           (mkWorld [("a.json", File 7 (Saved (mkSaveData Sample.noon "S" [])))] 0
              (fun _ => Sample.noon) (fun _ => 9%Q)
              (fun _ => Some (DumpFails "No space left on device")))
           "No space left on device" ltac:(discriminate) eq_refl eq_refl).
Defined.

(** X13: an explicit name, that is a non-empty one, decides the file name
    alone: the associated name and the clock play no part, the result
    ends in .json, a name that ends in .json already is kept as it is, and
    a name and the same name with .json appended resolve to the same
    file. *)
Theorem X13_explicit_name_is_normalised
  (b b2 : ChatBot) (w w2 : World) (c : string) :
  c <> "" ->
  let r := resolve_filename b (Some c) w in
  snd r = w
  /\ fst r = fst (resolve_filename b2 (Some c) w2)
  /\ endswith (fst r) ".json" = true
  /\ (endswith c ".json" = true -> fst r = c)
  /\ (endswith c ".json" = false -> fst r = c ++ ".json")
  /\ resolve_filename b (Some (fst r)) w = r.
Proof.
  intros Hc. destruct c as [|a c']; [now elim Hc|].
  unfold resolve_filename. cbn [fst snd].
  destruct (endswith (String a c') ".json") eqn:E.
  - rewrite E. repeat split; try reflexivity; try discriminate.
  - assert (A := endswith_append (String a c') ".json").
    cbn [append] in *. rewrite A.
    repeat split; try reflexivity; try discriminate.
Qed.

Lemma X13_explicit_name_witness :
  resolve_filename (SampleFiles.saved_before "a.json") (Some "backup.json")
    (Sample.quiet_world [])
  = resolve_filename (SampleFiles.saved_before "a.json") (Some "backup")
      (Sample.quiet_world []).
Proof.
  exact (proj2 (proj2 (proj2 (proj2 (proj2
           (X13_explicit_name_is_normalised
              (SampleFiles.saved_before "a.json") SampleFiles.unsaved
              (Sample.quiet_world []) (Sample.quiet_world [])
              "backup" ltac:(discriminate))))))).
Defined.

Section FreshNames.

(** Without an explicit name and without an associated one, the name is
    made from the clock. *)
Lemma resolve_filename_fresh (b : ChatBot) (w : World) :
  given (current_chat_file b) = false ->
  fst (resolve_filename b None w)
  = "chat_" ++ strftime (wall_clock w (ticks w)) ++ ".json".
Proof.
  unfold resolve_filename, given.
  destruct (current_chat_file b) as [[|c s]|]; try reflexivity; discriminate.
Qed.

Lemma clear_chat_confirmed (b : ChatBot) (keys : list stdin_event) :
  chat_history b <> [] -> confirmed keys = true ->
  fst (fst (fst (clear_chat b keys))) = set_file (set_history b []) None.
Proof.
  unfold clear_chat, confirmed. intros Hne Hc.
  destruct (chat_history b); [now elim Hne|].
  destruct (input keys) as [[e|line] rest]; [discriminate Hc|].
  now rewrite Hc.
Qed.

End FreshNames.

(** X14: names made from the clock have the precision of a second: two
    conversations without an associated name that are saved without an
    explicit name while the clock shows the same second get the same file
    name, and the second save replaces the record of the first instead of
    creating a file of its own. *)
Theorem X14_saves_in_the_same_second_collide
  (b1 b2 b1' b2' : ChatBot) (w w1 w2 : World) (n1 n2 : string) :
  chat_history b1 <> [] -> chat_history b2 <> [] ->
  given (current_chat_file b1) = false ->
  given (current_chat_file b2) = false ->
  save_chat b1 None w = (b1', w1, [NChatSaved n1]) ->
  save_chat b2 None w1 = (b2', w2, [NChatSaved n2]) ->
  wall_clock w1 (ticks w1) = wall_clock w (ticks w) ->
  n2 = n1
  /\ map fst (files w2) = map fst (files w1)
  /\ exists t d, lookup n1 (files w2) = Some (File t (Saved d))
                 /\ sd_messages d = chat_history b2.
Proof.
  intros H1 H2 G1 G2 S1 S2 Hclock.
  destruct (save_chat_saved_record _ _ _ _ _ _ H1 S1)
    as [N1 [t1 [d1 [F1 _]]]].
  destruct (save_chat_saved_record _ _ _ _ _ _ H2 S2)
    as [N2 [t2 [d2 [F2 [M2 _]]]]].
  rewrite (resolve_filename_fresh b1 w G1) in N1.
  rewrite (resolve_filename_fresh b2 w1 G2), Hclock, <- N1 in N2.
  subst n2. split; [reflexivity|]. split.
  - rewrite F2. apply store_existing_keys.
    rewrite F1, lookup_store. discriminate.
  - exists t2, d2. split; [|exact M2]. rewrite F2. apply lookup_store.
Qed.

Lemma X14_collision_witness :
  map fst (files (snd (fst (save_chat
     (mkChatBot None [mkMessage "user" "second"; mkMessage "assistant" "ok"]
        "S" None) None
     (snd (fst (save_chat SampleFiles.unsaved None (Sample.quiet_world []))))))))
  = ["chat_20250307_120000.json"].
Proof.
  exact (proj1 (proj2 (X14_saves_in_the_same_second_collide
    SampleFiles.unsaved
    (mkChatBot None [mkMessage "user" "second"; mkMessage "assistant" "ok"]
       "S" None)
    (fst (fst (save_chat SampleFiles.unsaved None (Sample.quiet_world []))))
    (fst (fst (save_chat
       (mkChatBot None [mkMessage "user" "second"; mkMessage "assistant" "ok"]
          "S" None) None
       (snd (fst (save_chat SampleFiles.unsaved None (Sample.quiet_world [])))))))
    (Sample.quiet_world [])
    (snd (fst (save_chat SampleFiles.unsaved None (Sample.quiet_world []))))
    (snd (fst (save_chat
       (mkChatBot None [mkMessage "user" "second"; mkMessage "assistant" "ok"]
          "S" None) None
       (snd (fst (save_chat SampleFiles.unsaved None (Sample.quiet_world [])))))))
    "chat_20250307_120000.json" "chat_20250307_120000.json"
    ltac:(discriminate) ltac:(discriminate) eq_refl eq_refl
    eq_refl eq_refl eq_refl))).
Defined.

(** X15: a confirmed clear forgets the associated file name for good: the
    conversation that follows has no associated name, and when it is saved
    without an explicit name it gets a name made from the clock, whatever
    the name of the cleared conversation was. *)
Theorem X15_clear_starts_a_new_record
  (b : ChatBot) (keys : list stdin_event) (user_input : string) (w : World) :
  chat_history b <> [] ->
  confirmed keys = true ->
  let cleared := fst (fst (fst (clear_chat b keys))) in
  let next := fst (fst (chat cleared user_input)) in
  current_chat_file next = None
  /\ fst (resolve_filename next None w)
     = "chat_" ++ strftime (wall_clock w (ticks w)) ++ ".json".
Proof.
  intros Hne Hc cleared next.
  assert (F : current_chat_file next = None).
  { unfold next. rewrite chat_keeps_file. unfold cleared.
    now rewrite (clear_chat_confirmed b keys Hne Hc). }
  split; [exact F|]. apply resolve_filename_fresh. now rewrite F.
Qed.

Lemma X15_clear_starts_a_new_record_witness :
  fst (resolve_filename
         (fst (fst (chat (fst (fst (fst (clear_chat
            (mkChatBot (Some Sample.hello_engine) Sample.one_exchange "S"
               (Some "a.json")) [Line "y"]))))
            "Again")))
         None (Sample.quiet_world []))
  = "chat_20250307_120000.json".
Proof.
  exact (proj2 (X15_clear_starts_a_new_record
                  (mkChatBot (Some Sample.hello_engine) Sample.one_exchange "S"
                     (Some "a.json"))
                  [Line "y"] "Again" (Sample.quiet_world [])
                  ltac:(discriminate) eq_refl)).
Defined.

(* ================================================================== *)
(** ** Further properties of the command loop *)

Section DispatchFacts.

(** The command that a pass reads, as the tests of [main] see it. *)
Lemma command_of_parts (line c : string) (args : option string) :
  command_of line = Some (c, args) ->
  (strip line =? "")%string = false
  /\ startswith (strip line) "/" = true
  /\ exists c0 more,
       split1 (tail (strip line)) = c0 :: more
       /\ lower c0 = c /\ hd_error more = args.
Proof.
  unfold command_of.
  destruct (strip line =? "")%string; [discriminate|].
  destruct (startswith (strip line) "/"); [|discriminate].
  destruct (split1 (tail (strip line))) as [|c0 more]; [discriminate|].
  intro H. injection H as H1 H2. repeat split; eauto.
Qed.

Lemma mem_string_false (c : string) (l : list string) :
  mem_string c l = false -> Forall (fun k => (c =? k)%string = false) l.
Proof.
  unfold mem_string. induction l as [|k l IH]; cbn [existsb]; intro H.
  - constructor.
  - apply orb_false_iff in H as [H1 H2]. constructor; [exact H1 | now apply IH].
Qed.

Lemma run_loop_throws_exceptions (fuel : nat) :
  forall (p p' : Proc) (e : exn),
    run_loop fuel p = Some (Throw e, p') -> is_Exception e = true.
Proof.
  induction fuel as [|fuel IH]; intros p p' e; [discriminate|].
  cbn [run_loop]. destruct (iteration p) as [[| |e'] q] eqn:E.
  - apply IH.
  - discriminate.
  - intro H. injection H as -> ->.
    destruct e; try reflexivity.
    exfalso. exact (iteration_never_interrupted _ _ E).
Qed.

Lemma cleanup_cases (p : Proc) :
  (fst (cleanup p) = None
   \/ (chat_history (bot p) <> []
       /\ (fst (cleanup p) = Some EOFError
           \/ fst (cleanup p) = Some KeyboardInterrupt)))
  /\ chat_history (bot (snd (cleanup p))) = chat_history (bot p)
  /\ system_prompt (bot (snd (cleanup p))) = system_prompt (bot p).
Proof.
  unfold cleanup. destruct (chat_history (bot p)) as [|t h] eqn:E.
  - cbn [fst snd]. rewrite E. repeat split. now left.
  - destruct (stdin p) as [|[line|] rest]; cbn [input fst snd bot].
    + rewrite E. repeat split. right. split; [discriminate | now left].
    + destruct (lower (strip line) =? "y")%string.
      * cbn [bot world stdin stdout].
        assert (H := save_chat_keeps_history (bot p) None (world p)).
        assert (S : system_prompt (fst (fst (save_chat (bot p) None (world p))))
                    = system_prompt (bot p)).
        { rewrite save_chat_write by (rewrite E; discriminate).
          now destruct (save_write (bot p) None (world p)) as [w3 [e|]]. }
        destruct (save_chat (bot p) None (world p)) as [[b' w'] out].
        cbn [fst snd bot] in *. rewrite H, S, E. repeat split. now left.
      * cbn [fst snd bot]. rewrite E. repeat split. now left.
    + rewrite E. repeat split. right. split; [discriminate | now right].
Qed.

End DispatchFacts.

Section LoopInvariants.

Lemma chat_keeps_prompt (b : ChatBot) (user_input : string) :
  system_prompt (fst (fst (chat b user_input))) = system_prompt b.
Proof.
  destruct (llm b) as [m|] eqn:L.
  - destruct (generation_failed (generation b m user_input)) eqn:G.
    + now destruct (chat_failure b m user_input L G) as [out ->].
    + now rewrite (chat_success b m user_input L G).
  - unfold chat. now rewrite L.
Qed.

Lemma chat_keeps_engine (b : ChatBot) (user_input : string) :
  llm b <> None -> llm (fst (fst (chat b user_input))) <> None.
Proof.
  destruct (llm b) as [m|] eqn:L; [intros _ | intro H; now elim H].
  destruct (generation_failed (generation b m user_input)) eqn:G.
  - destruct (chat_failure b m user_input L G) as [out ->]. discriminate.
  - rewrite (chat_success b m user_input L G). discriminate.
Qed.

Lemma clear_chat_keeps_prompt (b : ChatBot) (keys : list stdin_event) :
  system_prompt (fst (fst (fst (clear_chat b keys)))) = system_prompt b
  /\ llm (fst (fst (fst (clear_chat b keys)))) = llm b.
Proof.
  unfold clear_chat. destruct (chat_history b); [now split|].
  destruct (input keys) as [[e|line] rest]; [now split|].
  destruct (lower (strip line) =? "y")%string; now split.
Qed.

Lemma save_chat_keeps_prompt (b : ChatBot) (o : option string) (w : World) :
  system_prompt (fst (fst (save_chat b o w))) = system_prompt b
  /\ llm (fst (fst (save_chat b o w))) = llm b.
Proof.
  destruct (chat_history b) as [|t h] eqn:E.
  - unfold save_chat. now rewrite E.
  - rewrite save_chat_write by (rewrite E; discriminate).
    now destruct (save_write b o w) as [w3 [e|]].
Qed.

(** A pass of the loop keeps the system prompt, and the engine once it is
    loaded. *)
Lemma loop_body_keeps_prompt_engine (p : Proc) :
  system_prompt (bot (snd (loop_body p))) = system_prompt (bot p)
  /\ (llm (bot p) <> None -> llm (bot (snd (loop_body p))) <> None).
Proof.
  unfold loop_body.
  destruct (input (stdin p)) as [[e|line] rest]; [now split|].
  cbn [bot world stdin stdout].
  destruct (strip line =? "")%string; [now split|].
  destruct (startswith (strip line) "/").
  - destruct (split1 (tail (strip line))) as [|c more]; [now split|].
    destruct (mem_string (lower c) ["quit"; "exit"; "q"]); [now split|].
    destruct (lower c =? "help")%string; [now split|].
    destruct (lower c =? "clear")%string.
    { destruct (clear_chat_keeps_prompt (bot p) rest) as [H1 H2].
      destruct (clear_chat (bot p) rest) as [[[b' rest'] out] [e|]];
        cbn [fst snd bot] in *; rewrite H1, H2; now split. }
    destruct (lower c =? "save")%string.
    { match goal with
      | |- context [save_chat (bot p) ?a (world p)] =>
          destruct (save_chat_keeps_prompt (bot p) a (world p)) as [H1 H2];
          destruct (save_chat (bot p) a (world p)) as [[b' w'] out]
      end. cbn [fst snd bot] in *. rewrite H1, H2. now split. }
    destruct (lower c =? "list")%string.
    { destruct (list_saved_chats (bot p) (world p)) as [[e|names] out];
        now split. }
    destruct (lower c =? "stats")%string; [now split|].
    destruct (lower c =? "history")%string; [|now split].
    match goal with
    | |- context [match ?x with Some _ => _ | None => _ end] => destruct x
    end; now split.
  - assert (H1 := chat_keeps_prompt (bot p) (strip line)).
    assert (H2 := chat_keeps_engine (bot p) (strip line)).
    destruct (chat (bot p) (strip line)) as [[b' r] out].
    cbn [fst snd bot] in *. now split.
Qed.

Lemma loop_body_keeps_prompt (p : Proc) :
  system_prompt (bot (snd (loop_body p))) = system_prompt (bot p).
Proof. apply loop_body_keeps_prompt_engine. Qed.

End LoopInvariants.



(** X17: the process always ends.  Once the engine is loaded it ends
    with status 0, unless the terminal is closed or Ctrl-C is pressed at
    the final question whether to save, which is asked only when the turn
    store is not empty: then it dies of that exception.  In every case
    the turn store holds whole exchanges only and the system prompt is
    the one it started with. *)
Theorem X17_main_ends_and_how
  (SYSTEM_PROMPT : string) (s : Startup) (w : World) (keys : list stdin_event) :
  exists status p,
    main SYSTEM_PROMPT s w keys = Some (status, p)
    /\ (forall m, model_exists s = true -> engine_init s = inr m ->
          (status = Exit 0
           \/ (chat_history (bot p) <> []
               /\ (status = Uncaught EOFError
                   \/ status = Uncaught KeyboardInterrupt))))
    /\ exchanges_only (chat_history (bot p))
    /\ system_prompt (bot p) = SYSTEM_PROMPT.
Proof.
  unfold main, load_model.
  destruct (model_exists s); cbn [negb].
  2:{ eexists; eexists. split; [reflexivity|]. split; [discriminate|].
      split; [now exists 0 | reflexivity]. }
  destruct (engine_init s) as [e|m].
  { destruct (is_Exception e); eexists; eexists; (split; [reflexivity|]);
      (split; [discriminate|]); (split; [now exists 0 | reflexivity]). }
  cbn [new_ChatBot bot set_llm].
  set (p1 := mkProc _ w keys [NModelLoaded]).
  destruct (run_loop (S (List.length keys)) p1) as [[c p2]|] eqn:E.
  2:{ exfalso. revert E. apply run_loop_returns. cbn [stdin p1]. lia. }
  assert (X : exchanges_only (chat_history (bot p2))).
  { eapply run_loop_keeps_exchanges; [|exact E]. now exists 0. }
  set (p3 := match c with
             | Throw e => if is_Exception e then say p2 [NUnexpectedError e] else p2
             | _ => p2
             end).
  assert (B3 : bot p3 = bot p2).
  { unfold p3. destruct c as [| |e]; try reflexivity.
    now destruct (is_Exception e). }
  destruct (cleanup_cases p3) as [Hc [Hh Hs]].
  destruct (cleanup p3) as [ef p4]. cbn [fst snd] in *.
  rewrite B3 in Hh, Hs, Hc.
  assert (SP : system_prompt (bot p2) = SYSTEM_PROMPT).
  { clear - E. revert E. generalize (S (List.length keys)).
    assert (G : system_prompt (bot p1) = SYSTEM_PROMPT) by reflexivity.
    revert G. generalize p1. clear p1.
    intros q G n. revert q G. induction n as [|n IH]; intros q G; [discriminate|].
    cbn [run_loop].
    assert (I := loop_body_keeps_prompt q).
    unfold iteration. destruct (loop_body q) as [[| |[]] q']; cbn [snd] in I;
      try (intro H; injection H as _ <-; now rewrite I).
    - apply IH. now rewrite I.
    - apply IH. cbn [say bot]. now rewrite I. }
  destruct ef as [e|].
  - eexists; eexists. split; [reflexivity|].
    split; [|split; [now rewrite Hh | now rewrite Hs]].
    intros m0 _ Hm. injection Hm as <-. right.
    destruct Hc as [Hc|[Hne [Hc|Hc]]]; try discriminate Hc;
      injection Hc as ->; (split; [now rewrite Hh|]); [now left | now right].
  - destruct c as [| |e].
    + eexists; eexists. split; [reflexivity|].
      split; [now left | split; [now rewrite Hh | now rewrite Hs]].
    + eexists; eexists. split; [reflexivity|].
      split; [now left | split; [now rewrite Hh | now rewrite Hs]].
    + rewrite (run_loop_throws_exceptions _ _ _ _ E).
      eexists; eexists. split; [reflexivity|].
      split; [now left | split; [now rewrite Hh | now rewrite Hs]].
Qed.

Section CommandFacts.

Lemma known_commands_false (c : string) :
  mem_string c KNOWN_COMMANDS = false ->
  mem_string c ["quit"; "exit"; "q"] = false
  /\ (c =? "help")%string = false /\ (c =? "clear")%string = false
  /\ (c =? "save")%string = false /\ (c =? "list")%string = false
  /\ (c =? "stats")%string = false /\ (c =? "history")%string = false.
Proof.
  unfold mem_string, KNOWN_COMMANDS. cbn [existsb]. intro H.
  repeat (apply orb_false_iff in H; destruct H as [? H]).
  repeat split; try assumption.
  repeat (apply orb_false_iff; split); assumption.
Qed.

End CommandFacts.

(** X18: a line whose command name is quit, exit or q, in any case and
    with or without an argument, leaves the loop at once: nothing else is
    read, the bot and the chat directory are as they were.  As the first
    line of a session it ends the process with status 0 without asking
    whether to save. *)
Theorem X18_quit_leaves_the_loop
  (p : Proc) (line c : string) (args : option string) (rest : list stdin_event) :
  stdin p = Line line :: rest ->
  command_of line = Some (c, args) ->
  mem_string c ["quit"; "exit"; "q"] = true ->
  iteration p
  = (Break, mkProc (bot p) (world p) rest (stdout p ++ [NGoodbye])%list)
  /\ (forall SYSTEM_PROMPT m w,
        main SYSTEM_PROMPT (mkStartup true (inr m)) w (Line line :: rest)
        = Some (Exit 0,
                mkProc (mkChatBot (Some m) [] SYSTEM_PROMPT None) w rest
                  [NModelLoaded; NGoodbye])).
Proof.
  intros Hin Hc Hq.
  destruct (command_of_parts _ _ _ Hc) as [He [Hs [c0 [more [Hsp [Hl Ha]]]]]].
  split.
  - unfold iteration, loop_body. rewrite Hin. cbn [input].
    rewrite He, Hs, Hsp, Hl, Hq. reflexivity.
  - intros SYSTEM_PROMPT m w. unfold main, load_model.
    cbn [model_exists engine_init negb new_ChatBot bot set_llm run_loop
         llm chat_history system_prompt current_chat_file].
    unfold iteration, loop_body. cbn [stdin input].
    rewrite He, Hs, Hsp, Hl, Hq. reflexivity.
Qed.

Lemma X18_quit_witness :
  iteration (mkProc SampleFiles.unsaved (Sample.quiet_world [])
               [Line "  /EXIT now "; Line "Hi"] [])
  = (Break, mkProc SampleFiles.unsaved (Sample.quiet_world []) [Line "Hi"]
              [NGoodbye]).
Proof.
  exact (proj1 (X18_quit_leaves_the_loop
                  (mkProc SampleFiles.unsaved (Sample.quiet_world [])
                     [Line "  /EXIT now "; Line "Hi"] [])
                  "  /EXIT now " "exit" (Some "now") [Line "Hi"]
                  eq_refl eq_refl eq_refl)).
Defined.

(** X19: Ctrl-C never leaves the loop.  At the prompt it only prints the
    hint to type /quit; at the confirmation of a clear it cancels the
    clear the same way; in both cases the bot and the chat directory are
    as they were, and no pass of the loop ends with KeyboardInterrupt. *)
Theorem X19_ctrl_c_does_not_end_the_loop (p : Proc) (rest : list stdin_event) :
  (stdin p = CtrlC :: rest ->
   iteration p
   = (Next, mkProc (bot p) (world p) rest (stdout p ++ [NTypeQuit])%list))
  /\ (forall line args,
        stdin p = Line line :: CtrlC :: rest ->
        command_of line = Some ("clear", args) ->
        chat_history (bot p) <> [] ->
        iteration p
        = (Next, mkProc (bot p) (world p) rest (stdout p ++ [NTypeQuit])%list))
  /\ (forall p', iteration p <> (Throw KeyboardInterrupt, p')).
Proof.
  split; [|split].
  - intro Hin. unfold iteration, loop_body. rewrite Hin. reflexivity.
  - intros line args Hin Hc Hne.
    destruct (command_of_parts _ _ _ Hc) as [He [Hs [c0 [more [Hsp [Hl Ha]]]]]].
    unfold iteration, loop_body. rewrite Hin. cbn [input].
    rewrite He, Hs, Hsp, Hl. cbn [bot world stdin stdout].
    change (mem_string "clear" ["quit"; "exit"; "q"]) with false.
    change ("clear" =? "help")%string with false.
    change ("clear" =? "clear")%string with true.
    cbv iota. unfold clear_chat.
    destruct (chat_history (bot p)); [now elim Hne|].
    cbn [input]. unfold say. cbn [bot world stdin stdout].
    now rewrite app_nil_r.
  - intro p'. apply iteration_never_interrupted.
Qed.

Lemma X19_ctrl_c_witness :
  iteration (mkProc SampleFiles.unsaved (Sample.quiet_world [])
               [Line "/clear"; CtrlC; Line "Hi"] [])
  = (Next, mkProc SampleFiles.unsaved (Sample.quiet_world []) [Line "Hi"]
             [NTypeQuit]).
Proof.
  exact (proj1 (proj2 (X19_ctrl_c_does_not_end_the_loop
                  (mkProc SampleFiles.unsaved (Sample.quiet_world [])
                     [Line "/clear"; CtrlC; Line "Hi"] [])
                  [Line "Hi"]))
           "/clear" None eq_refl eq_refl ltac:(discriminate)).
Defined.

(** X20: a command line whose name is none of those that main knows is
    answered with a notice, and so is a history command whose argument is
    not a number: the loop goes on with the next line, the bot and the
    chat directory are as they were. *)
Theorem X20_bad_commands_are_only_reported
  (p : Proc) (line c : string) (args : option string) (rest : list stdin_event) :
  stdin p = Line line :: rest ->
  command_of line = Some (c, args) ->
  (mem_string c KNOWN_COMMANDS = false ->
   iteration p
   = (Next, mkProc (bot p) (world p) rest
              (stdout p ++ [NUnknownCommand c])%list))
  /\ (forall a, c = "history" -> args = Some a -> a <> "" -> int a = None ->
      iteration p
      = (Next, mkProc (bot p) (world p) rest
                 (stdout p ++ [NInvalidNumber])%list)).
Proof.
  intros Hin Hc.
  destruct (command_of_parts _ _ _ Hc) as [He [Hs [c0 [more [Hsp [Hl Ha]]]]]].
  split.
  - intro Hk.
    destruct (known_commands_false c Hk)
      as [K1 [K2 [K3 [K4 [K5 [K6 K7]]]]]].
    unfold iteration, loop_body. rewrite Hin. cbn [input].
    rewrite He, Hs, Hsp, Hl, K1, K2, K3, K4, K5, K6, K7. reflexivity.
  - intros a -> -> Hne Hi.
    unfold iteration, loop_body. rewrite Hin. cbn [input].
    rewrite He, Hs, Hsp, Hl. cbn [bot world stdin stdout].
    change (mem_string "history" ["quit"; "exit"; "q"]) with false.
    change ("history" =? "help")%string with false.
    change ("history" =? "clear")%string with false.
    change ("history" =? "save")%string with false.
    change ("history" =? "list")%string with false.
    change ("history" =? "stats")%string with false.
    change ("history" =? "history")%string with true.
    cbv iota. destruct more as [|a' more']; [discriminate Ha|].
    cbn [hd_error] in Ha. injection Ha as ->.
    destruct a as [|x a]; [now elim Hne|]. rewrite Hi. reflexivity.
Qed.

Lemma X20_bad_commands_witness :
  iteration (mkProc SampleFiles.unsaved (Sample.quiet_world [])
               [Line "/history ten"; Line "Hi"] [])
  = (Next, mkProc SampleFiles.unsaved (Sample.quiet_world []) [Line "Hi"]
             [NInvalidNumber]).
Proof.
  exact (proj2 (X20_bad_commands_are_only_reported
                  (mkProc SampleFiles.unsaved (Sample.quiet_world [])
                     [Line "/history ten"; Line "Hi"] [])
                  "/history ten" "history" (Some "ten") [Line "Hi"]
                  eq_refl eq_refl)
           "ten" eq_refl eq_refl ltac:(discriminate) eq_refl).
Defined.

Section SlashFacts.

Lemma lstrip_empty_last (t : string) (d : ascii) :
  lstrip t = "" -> t <> "" -> is_space (last_char t d) = true.
Proof.
  revert d. induction t as [|c t IH]; intros d H Hne; [now elim Hne|].
  cbn [lstrip] in H. destruct (is_space c) eqn:E; [|discriminate H].
  cbn [last_char]. destruct t as [|c' t']; [exact E|].
  apply IH; [exact H | discriminate].
Qed.

Lemma split1_nil (t : string) : split1 t = [] <-> lstrip t = "".
Proof.
  unfold split1. destruct (lstrip t) as [|c s]; [now split|].
  destruct (span_word (String c s)) as [w r].
  destruct (lstrip r); split; discriminate.
Qed.

(** A trimmed line that begins with a slash and has more after it has a
    command name. *)
Lemma slash_line_has_command (u : string) :
  trimmed u = true -> startswith u "/" = true -> u <> "/" ->
  split1 (tail u) <> [].
Proof.
  intros Ht Hs Hne Hn. apply split1_nil in Hn.
  unfold startswith in Hs. apply prefix_split in Hs as [t ->].
  cbn [append tail] in *.
  assert (Htn : t <> "") by (intros ->; now apply Hne).
  unfold trimmed in Ht. apply andb_true_iff in Ht as [_ Ht].
  apply negb_true_iff in Ht. cbn [last_char] in Ht.
  rewrite (lstrip_empty_last t _ Hn Htn) in Ht. discriminate Ht.
Qed.

End SlashFacts.

(** X21: among the lines that begin with a slash once trimmed, the bare
    slash is the only one in which main finds no command name; on it the
    pass raises IndexError, which is not handled inside the loop; every
    other one has a command name. *)
Theorem X21_bare_slash_is_the_only_line_without_command (line : string) :
  startswith (strip line) "/" = true ->
  (command_of line = None <-> strip line = "/")
  /\ (forall p rest,
        stdin p = Line line :: rest -> strip line = "/" ->
        iteration p
        = (Throw IndexError, mkProc (bot p) (world p) rest (stdout p))).
Proof.
  intro Hs. split.
  - unfold command_of. rewrite Hs.
    destruct (strip line =? "")%string eqn:He.
    + apply String.eqb_eq in He. rewrite He in Hs. discriminate Hs.
    + split.
      * intro H. destruct (string_dec (strip line) "/") as [E|E]; [exact E|].
        exfalso.
        apply (slash_line_has_command (strip line) (strip_trimmed line) Hs E).
        destruct (split1 (tail (strip line))); [reflexivity | discriminate H].
      * intros ->. reflexivity.
  - intros p rest Hin E. unfold iteration, loop_body.
    rewrite Hin. cbn [input]. rewrite E. reflexivity.
Qed.

Lemma X21_bare_slash_witness :
  iteration (mkProc SampleFiles.unsaved (Sample.quiet_world [])
               [Line "  / "; Line "Hi"] [])
  = (Throw IndexError,
     mkProc SampleFiles.unsaved (Sample.quiet_world []) [Line "Hi"] []).
Proof.
  exact (proj2 (X21_bare_slash_is_the_only_line_without_command "  / " eq_refl)
           (mkProc SampleFiles.unsaved (Sample.quiet_world [])
              [Line "  / "; Line "Hi"] [])
           [Line "Hi"] eq_refl eq_refl).
Defined.

(** X22: the chat directory and the clock are touched by the save command
    alone: a pass of the loop that reads anything else, a chat line
    included, leaves the world as it was. *)
Theorem X22_only_save_writes (p : Proc) :
  (forall line rest args,
     stdin p = Line line :: rest -> command_of line <> Some ("save", args)) ->
  world (snd (iteration p)) = world p.
Proof.
  intro Hns.
  assert (H : world (snd (loop_body p)) = world p).
  { unfold loop_body.
    destruct (stdin p) as [|[line|] rest] eqn:Hin; cbn [input]; try reflexivity.
    specialize (Hns line rest). unfold command_of in Hns.
    cbn [bot world stdin stdout].
    destruct (strip line =? "")%string; [reflexivity|].
    destruct (startswith (strip line) "/").
    - destruct (split1 (tail (strip line))) as [|c more]; [reflexivity|].
      destruct (mem_string (lower c) ["quit"; "exit"; "q"]); [reflexivity|].
      destruct (lower c =? "help")%string; [reflexivity|].
      destruct (lower c =? "clear")%string.
      { destruct (clear_chat (bot p) rest) as [[[b' rest'] out] [e|]];
          reflexivity. }
      destruct (lower c =? "save")%string eqn:Es.
      { apply String.eqb_eq in Es. exfalso.
        apply (Hns (hd_error more) eq_refl). now rewrite Es. }
      destruct (lower c =? "list")%string.
      { destruct (list_saved_chats (bot p) (world p)) as [[e|names] out];
          reflexivity. }
      destruct (lower c =? "stats")%string; [reflexivity|].
      destruct (lower c =? "history")%string; [|reflexivity].
      match goal with
      | |- context [match ?x with Some _ => _ | None => _ end] => destruct x
      end; reflexivity.
    - destruct (chat (bot p) (strip line)) as [[b' r] out]. reflexivity. }
  unfold iteration. destruct (loop_body p) as [[| |[]] q]; exact H.
Qed.

Lemma X22_only_save_writes_witness :
  world (snd (iteration (mkProc (Sample.helpful Sample.hello_engine)
                           (Sample.quiet_world []) [Line "Hi"] [])))
  = Sample.quiet_world [].
Proof.
  exact (X22_only_save_writes
           (mkProc (Sample.helpful Sample.hello_engine)
              (Sample.quiet_world []) [Line "Hi"] [])
           (fun line rest args H =>
              ltac:(injection H as <- <-; discriminate))).
Defined.

(** X23: what the engine is shown next depends on the outcome of a call
    as follows: after a call that returned nothing, the prompt of the
    next call is the one it would have been had the failed message never
    been sent; after a call that returned a response, it is the formatted
    history of before, the blocks of the user turn and of the response,
    the block of the new message and the open assistant header. *)
Theorem X23_next_prompt_after_a_call (b : ChatBot) (u u2 : string) :
  let b' := fst (fst (chat b u)) in
  match snd (fst (chat b u)) with
  | None => chat_prompt (with_user_turn b' u2) = chat_prompt (with_user_turn b u2)
  | Some response =>
      chat_prompt (with_user_turn b' u2)
      = format_chat_history b
        ++ format_message (mkMessage "user" u)
        ++ format_message (mkMessage "assistant" response)
        ++ format_message (mkMessage "user" u2)
        ++ header "assistant"
  end.
Proof.
  intro b'. assert (P := chat_keeps_prompt b u). fold b' in P.
  assert (C : forall x, chat_prompt x
                        = "<|begin_of_text|>" ++ header "system"
                          ++ system_prompt x ++ "<|eot_id|>"
                          ++ format_messages (chat_history x)
                          ++ header "assistant").
  { intro x. unfold chat_prompt. rewrite format_chat_history_closed.
    unfold header. now rewrite !append_assoc. }
  destruct (chat_history_cases b u) as [[Hr Hh]|[resp [Hr Hh]]];
    fold b' in Hh; rewrite Hr.
  - rewrite !C. unfold with_user_turn.
    cbn [set_history chat_history system_prompt]. now rewrite P, Hh.
  - rewrite C, format_chat_history_closed. unfold with_user_turn.
    cbn [set_history chat_history system_prompt]. rewrite P, Hh.
    rewrite !format_messages_app. cbn [format_messages].
    now rewrite !append_assoc.
Qed.

(** X24: the clear command asks for a confirmation only when there is
    something to clear.  On an empty store it reads nothing, so the next
    line is read as a line of its own; on a store with turns the next
    line is taken as the answer, whatever it is, and a closed terminal
    at that point raises EOFError out of the loop. *)
Theorem X24_clear_reads_the_answer_only_when_needed
  (p : Proc) (line : string) (args : option string) (rest : list stdin_event) :
  stdin p = Line line :: rest ->
  command_of line = Some ("clear", args) ->
  (chat_history (bot p) = [] ->
   iteration p
   = (Next, mkProc (bot p) (world p) rest (stdout p ++ [NAlreadyEmpty])%list))
  /\ (chat_history (bot p) <> [] ->
      forall answer rest',
        rest = Line answer :: rest' ->
        iteration p
        = (Next,
           if (lower (strip answer) =? "y")%string
           then mkProc (set_file (set_history (bot p) []) None) (world p) rest'
                  (stdout p ++ [NCleared])%list
           else mkProc (bot p) (world p) rest'
                  (stdout p ++ [NCancelled])%list))
  /\ (chat_history (bot p) <> [] -> rest = [] ->
      iteration p
      = (Throw EOFError, mkProc (bot p) (world p) [] (stdout p))).
Proof.
  intros Hin Hc.
  destruct (command_of_parts _ _ _ Hc) as [He [Hs [c0 [more [Hsp [Hl Ha]]]]]].
  assert (E : loop_body p
              = let '(b', rest', out, e) := clear_chat (bot p) rest in
                let p' := mkProc b' (world p) rest' (stdout p ++ out)%list in
                match e with Some e => (Throw e, p') | None => (Next, p') end).
  { unfold loop_body. rewrite Hin. cbn [input].
    rewrite He, Hs, Hsp, Hl. cbn [bot world stdin stdout].
    change (mem_string "clear" ["quit"; "exit"; "q"]) with false.
    change ("clear" =? "help")%string with false.
    change ("clear" =? "clear")%string with true.
    reflexivity. }
  unfold iteration. rewrite E. unfold clear_chat.
  split; [|split].
  - intros ->. reflexivity.
  - intros Hne answer rest' ->.
    destruct (chat_history (bot p)); [now elim Hne|]. cbn [input].
    now destruct (lower (strip answer) =? "y")%string.
  - intros Hne ->.
    destruct (chat_history (bot p)); [now elim Hne|]. cbn [input].
    now rewrite app_nil_r.
Qed.

Lemma X24_clear_witness :
  iteration (mkProc SampleFiles.unsaved (Sample.quiet_world [])
               [Line "/clear"; Line "/save"; Line "Hi"] [])
  = (Next, mkProc SampleFiles.unsaved (Sample.quiet_world []) [Line "Hi"]
             [NCancelled]).
Proof.
  exact (proj1 (proj2 (X24_clear_reads_the_answer_only_when_needed
                  (mkProc SampleFiles.unsaved (Sample.quiet_world [])
                     [Line "/clear"; Line "/save"; Line "Hi"] [])
                  "/clear" None [Line "/save"; Line "Hi"] eq_refl eq_refl))
           ltac:(discriminate) "/save" [Line "Hi"] eq_refl).
Defined.

Section EngineCalls.

Lemma chat_calls_once (b : ChatBot) (user_input : string) :
  llm b <> None ->
  llm (fst (fst (chat b user_input))) <> None
  /\ engine_calls (fst (fst (chat b user_input))) = S (engine_calls b).
Proof.
  unfold engine_calls.
  destruct (llm b) as [m|] eqn:L; [intros _ | intro H; now elim H].
  destruct (generation_failed (generation b m user_input)) eqn:G.
  - destruct (chat_failure b m user_input L G) as [out ->].
    cbn [fst llm ncalls]. split; [discriminate | reflexivity].
  - rewrite (chat_success b m user_input L G).
    cbn [fst llm ncalls]. split; [discriminate | reflexivity].
Qed.

End EngineCalls.

(** X25: in the command loop, once the engine is loaded it stays loaded,
    and it is called exactly once for every chat line, whether the
    generation succeeds or fails, and never for a command, an empty line
    or a Ctrl-C. *)
Theorem X25_one_engine_call_per_chat_line (p : Proc) :
  llm (bot p) <> None ->
  let p' := snd (iteration p) in
  llm (bot p') <> None
  /\ engine_calls (bot p')
     = match stdin p with
       | Line line :: _ =>
           if is_chat_line line then S (engine_calls (bot p))
           else engine_calls (bot p)
       | _ => engine_calls (bot p)
       end.
Proof.
  intros Hl p'.
  assert (H : llm (bot (snd (loop_body p))) <> None
              /\ engine_calls (bot (snd (loop_body p)))
                 = match stdin p with
                   | Line line :: _ =>
                       if is_chat_line line then S (engine_calls (bot p))
                       else engine_calls (bot p)
                   | _ => engine_calls (bot p)
                   end).
  { unfold loop_body, is_chat_line.
    destruct (stdin p) as [|[line|] rest]; cbn [input]; try (now split).
    cbn [bot world stdin stdout].
    destruct (strip line =? "")%string; cbn [negb andb]; [now split|].
    destruct (startswith (strip line) "/"); cbn [negb].
    - destruct (split1 (tail (strip line))) as [|c more]; [now split|].
      destruct (mem_string (lower c) ["quit"; "exit"; "q"]); [now split|].
      destruct (lower c =? "help")%string; [now split|].
      destruct (lower c =? "clear")%string.
      { destruct (clear_chat_keeps_prompt (bot p) rest) as [_ H2].
        destruct (clear_chat (bot p) rest) as [[[b' rest'] out] [e|]];
          cbn [fst snd bot] in *; unfold engine_calls; rewrite H2;
          now split. }
      destruct (lower c =? "save")%string.
      { match goal with
        | |- context [save_chat (bot p) ?a (world p)] =>
            destruct (save_chat_keeps_prompt (bot p) a (world p)) as [_ H2];
            destruct (save_chat (bot p) a (world p)) as [[b' w'] out]
        end. cbn [fst snd bot] in *. unfold engine_calls. rewrite H2.
        now split. }
      destruct (lower c =? "list")%string.
      { destruct (list_saved_chats (bot p) (world p)) as [[e|names] out];
          now split. }
      destruct (lower c =? "stats")%string; [now split|].
      destruct (lower c =? "history")%string; [|now split].
      match goal with
      | |- context [match ?x with Some _ => _ | None => _ end] => destruct x
      end; now split.
    - assert (H := chat_calls_once (bot p) (strip line) Hl).
      destruct (chat (bot p) (strip line)) as [[b' r] out]. exact H. }
  unfold p', iteration. destruct (loop_body p) as [[| |[]] q]; exact H.
Qed.

Lemma X25_one_engine_call_witness :
  engine_calls
    (bot (snd (iteration (mkProc (Sample.helpful Sample.interrupted_engine)
                            (Sample.quiet_world []) [Line "Hi"] []))))
  = 1.
Proof.
  exact (proj2 (X25_one_engine_call_per_chat_line
                  (mkProc (Sample.helpful Sample.interrupted_engine)
                     (Sample.quiet_world []) [Line "Hi"] [])
                  ltac:(discriminate))).
Defined.

(** X26: when the stop marker occurs in a fragment and not again in the
    text after it, what the consumer keeps of the fragment is the text
    before the marker followed by the text after it; when the fragment
    ends with the marker, it is the text before the marker. *)
Theorem X26_single_marker_is_cut_out (token : string) :
  contains "<|eot_id|>" token = true ->
  contains "<|eot_id|>" (text_after "<|eot_id|>" token) = false ->
  replace "<|eot_id|>" "" token
  = text_before "<|eot_id|>" token ++ text_after "<|eot_id|>" token
  /\ (text_after "<|eot_id|>" token = "" ->
      replace "<|eot_id|>" "" token = text_before "<|eot_id|>" token).
Proof.
  intros Hc Ha.
  assert (E := replace_first_occurrence "<|eot_id|>" token
                 ltac:(discriminate) Hc).
  rewrite (replace_absent "<|eot_id|>" _ ltac:(discriminate) Ha) in E.
  split; [exact E|]. intro H. rewrite E, H. apply append_nil_r.
Qed.

Lemma X26_single_marker_witness :
  replace "<|eot_id|>" "" "Bye.<|eot_id|>" = "Bye.".
Proof.
  exact (proj2 (X26_single_marker_is_cut_out "Bye.<|eot_id|>" eq_refl eq_refl)
           eq_refl).
Defined.
